(** * Assistants controller helpers: version, client and listing resolution

    A shallow embedding of [api/server/controllers/assistants/helpers.js]
    and the properties its specification states about it.

    - JavaScript values that the helpers inspect are primitive values
      ([value]); numbers are restricted to integers, printed in plain
      decimal (as JavaScript does below 10^21).
    - Strings are sequences of code units, rendered here with [string].
    - Plain objects used as dictionaries (the cached endpoints
      configuration, the default version table, [groupMap], an assistant
      record) are [gmap string _]; own properties only, no prototype chain.
    - [Object.entries(group.models)] is an association list, in the order
      of the entries.
    - The helpers are [async]; they are written in a state-and-exception
      monad whose state carries the one mutable field of the request
      ([req.body.model]) and the trace of calls made to the collaborators
      (configuration cache, client initializers, vendor SDK).  A call of
      an [async] helper is split where it first suspends, so that the
      fan-out of [listAssistantsForAzure] can start every call before it
      awaits any.
    - What the file imports ([EModelEndpoint], [defaultAssistantsVersion],
      the cache, the initializers, the SDK) is a parameter, [World].  The
      initializers and the list call may reject; the read of the
      configuration cache is taken to resolve. *)

From Stdlib Require Import ZArith Ascii DecimalString.
From stdpp Require Import gmap strings list.

Local Open Scope string_scope.
Local Open Scope Z_scope.
Local Open Scope list_scope.

(** ** JavaScript values *)

Inductive value : Type :=
| VUndefined
| VNull
| VBool (b : bool)
| VNum (z : Z)
| VStr (s : string).

#[global] Instance value_eq_dec : EqDecision value.
Proof. solve_decision. Defined.

(** [ToBoolean]. *)
Definition truthy (v : value) : bool :=
  match v with
  | VUndefined | VNull => false
  | VBool b => b
  | VNum z => negb (z =? 0)
  | VStr s => negb (String.eqb s "")
  end.

(** [ToString], as a template literal applies it. *)
Definition to_string (v : value) : string :=
  match v with
  | VUndefined => "undefined"
  | VNull => "null"
  | VBool true => "true"
  | VBool false => "false"
  | VNum z => NilZero.string_of_int (Z.to_int z)
  | VStr s => s
  end.

(** [a ?? b]. *)
Definition nullish (a b : value) : value :=
  match a with
  | VUndefined | VNull => b
  | _ => a
  end.

(** [a === b] on primitive values. *)
Definition strict_eq (a b : value) : bool := bool_decide (a = b).

(** A destructuring default [{ x = d }]: it applies to [undefined] only. *)
Definition destructure_default (d v : value) : value :=
  match v with
  | VUndefined => d
  | _ => v
  end.

(** An optional string ([undefined] is [None]): truthiness and [??]. *)
Definition truthy_str (o : option string) : bool :=
  match o with
  | None => false
  | Some s => negb (String.eqb s "")
  end.

Definition coalesce (a b : option string) : option string :=
  match a with
  | Some _ => a
  | None => b
  end.

(** ** String primitives *)

(** [s.lastIndexOf(pat)]: scan every position, keep the last match. *)
Fixpoint lastIndexOf_from (pat s : string) (i acc : Z) : Z :=
  match s with
  | EmptyString => if String.prefix pat s then i else acc
  | String _ s' =>
      lastIndexOf_from pat s' (i + 1) (if String.prefix pat s then i else acc)
  end.

Definition lastIndexOf (s pat : string) : Z := lastIndexOf_from pat s 0 (-1).

(** [s.substring(a, b)]: both ends clamped to [0, length], swapped when
    out of order. *)
Definition js_substring (s : string) (a b : Z) : string :=
  let len := Z.of_nat (String.length s) in
  let a' := Z.max 0 (Z.min a len) in
  let b' := Z.max 0 (Z.min b len) in
  let lo := Z.min a' b' in
  let hi := Z.max a' b' in
  String.substring (Z.to_nat lo) (Z.to_nat (hi - lo)) s.

Definition startsWith (s pat : string) : bool := String.prefix pat s.

(** ** Data model *)

(** An assistant record of the vendor: a plain object. *)
Abbreviation Assistant := (gmap string value).

(** [obj.k], [undefined] when the property is absent. *)
Definition prop (o : Assistant) (k : string) : value :=
  match o !! k with
  | Some v => v
  | None => VUndefined
  end.

(** The paginated list envelope. *)
Record Envelope : Type := mkEnvelope {
  first_id : value;
  last_id : value;
  object : string;
  has_more : bool;
  data : list Assistant
}.

(** What the vendor's list call resolves to: a page exposing [data] and
    the raw [body]. *)
Record Page : Type := mkPage {
  page_data : list Assistant;
  page_body : option Envelope
}.

(** The query object handed to the vendor's list call. *)
Record Query : Type := mkQuery {
  limit : value;
  order : value;
  after : value;
  before : value
}.

(** One entry of a group's [models] table. *)
Record ModelConfig : Type := mkModelConfig {
  mc_deploymentName : value
}.

(** [Object.entries(group.models)] *)
Abbreviation ModelTuples := (list (string * ModelConfig)).

Record AzureGroup : Type := mkAzureGroup {
  deploymentName : value;
  models : list (string * ModelConfig)
}.

Record AzureConfig : Type := mkAzureConfig {
  groupMap : gmap string AzureGroup;
  assistantGroups : list string
}.

(** The parts of the Express request the helpers read.  [req.body.model],
    which the Azure lister writes, lives in the state. *)
Record Request : Type := mkRequest {
  baseUrl : string;
  body_version : value;
  body_endpoint : option string;
  query_limit : value;
  query_order : value;
  query_after : value;
  query_before : value;
  query_endpoint : option string;
  (** [req.app.locals[EModelEndpoint.azureOpenAI]] *)
  locals_azureConfig : option AzureConfig
}.

(** One entry of the cached endpoints configuration. *)
Record EndpointConfig : Type := mkEndpointConfig {
  cfg_version : value
}.

(** ** Errors and effects *)

Inductive error : Type :=
| JsError (message : string)       (* [throw new Error(message)] *)
| TypeError (what : string)        (* raised by the runtime *)
| Rejected (code : nat).           (* a collaborator's own failure *)

Inductive outcome (A : Type) : Type :=
| Ok (a : A)
| Throw (e : error).
Arguments Ok {A} a.
Arguments Throw {A} e.

(** The two errors the helpers raise themselves. *)
Definition InvalidVersion (req : Request) (version : string) : error :=
  JsError ("[" +:+ baseUrl req +:+ "] Invalid version: " +:+ version).

Definition EndpointRequired (req : Request) : error :=
  JsError ("[" +:+ baseUrl req +:+ "] Endpoint is required").

Definition Client := nat.

(** The object an initializer resolves to; [openai] may be missing. *)
Record InitResult : Type := mkInitResult {
  openai : option Client
}.

(** Arguments of a client initializer: the request as it is when the
    initializer is called, and the rest passed through. *)
Record InitArgs : Type := mkInitArgs {
  ia_req : Request;
  ia_body_model : value;
  ia_version : string;
  ia_endpointOption : value;
  ia_initAppClient : value
}.

Inductive event : Type :=
| EvCacheGet                               (* cache.get(ENDPOINT_CONFIG) *)
| EvInit (azure : bool) (args : InitArgs)  (* a client initializer *)
| EvList (c : Client) (q : Query)          (* openai.beta.assistants.list *)
| EvPromise                                (* promises.push(listAssistants(..)) *)
| EvAwaitAll.                              (* await Promise.all(promises) *)

Record State : Type := mkState {
  body_model : value;
  trace : list event
}.

Definition M (A : Type) : Type := State -> outcome A * State.

Definition ret {A} (a : A) : M A := fun st => (Ok a, st).
Definition throw {A} (e : error) : M A := fun st => (Throw e, st).
Definition bind {A B} (m : M A) (k : A -> M B) : M B :=
  fun st =>
    match m st with
    | (Ok a, st') => k a st'
    | (Throw e, st') => (Throw e, st')
    end.
Definition emit (e : event) : M unit :=
  fun st => (Ok tt, mkState (body_model st) (trace st ++ [e])).
Definition set_body_model (v : value) : M unit :=
  fun st => (Ok tt, mkState v (trace st)).
Definition get_body_model : M value := fun st => (Ok (body_model st), st).
Definition lift {A} (o : outcome A) : M A := fun st => (o, st).

Notation "'let!' x ':=' m 'in' k" := (bind m (fun x => k))
  (at level 10, x name, m at level 100, k at level 200).

(** ** The collaborators

    Everything the file imports: the endpoint names and the default
    version table of [librechat-data-provider], the configuration cache,
    the two client initializers and the vendor's list call. *)
Record World : Type := mkWorld {
  E_assistants : string;
  E_azureAssistants : string;
  defaultAssistantsVersion : gmap string value;
  (** what [cache.get(CacheKeys.ENDPOINT_CONFIG)] resolves to *)
  cachedEndpointsConfig : option (gmap string EndpointConfig);
  initializeClient : InitArgs -> outcome (option InitResult);
  initAzureClient : InitArgs -> outcome (option InitResult);
  assistants_list : Client -> Query -> outcome Page
}.

Section Helpers.

Variable w : World.

(** ** [getCurrentVersion] *)

(** [cachedEndpointsConfig?.[endpoint]?.version] *)
Definition cached_version (endpoint : string) : value :=
  match cachedEndpointsConfig w with
  | Some cfg =>
      match cfg !! endpoint with
      | Some c => cfg_version c
      | None => VUndefined
      end
  | None => VUndefined
  end.

(** [defaultAssistantsVersion[endpoint]] *)
Definition default_version (endpoint : string) : value :=
  match defaultAssistantsVersion w !! endpoint with
  | Some v => v
  | None => VUndefined
  end.

(** [cachedEndpointsConfig?.[endpoint]?.version ?? defaultAssistantsVersion[endpoint]] *)
Definition configured_version (endpoint : string) : value :=
  nullish (cached_version endpoint) (default_version endpoint).

Definition getCurrentVersion (req : Request) (endpoint : option string)
  : M string :=
  let index := lastIndexOf (baseUrl req) "/v" in
  let version0 :=
    if index =? -1 then None
    else Some (js_substring (baseUrl req) (index + 1) (index + 3)) in
  let version1 :=
    if negb (truthy_str version0) && truthy (body_version req)
    then Some ("v" +:+ to_string (body_version req))
    else version0 in
  let! version2 :=
    if negb (truthy_str version1) && truthy_str endpoint
    then
      let! _ := emit EvCacheGet in
      ret (Some ("v" +:+ to_string (configured_version (default "" endpoint))))
    else ret version1 in
  match version2 with
  | None =>
      (* [!version?.startsWith('v')] holds, then [version.length] on null *)
      throw (TypeError "Cannot read properties of null (reading 'length')")
  | Some version =>
      if negb (startsWith version "v")
         && negb (Z.of_nat (String.length version) =? 2)
      then throw (InvalidVersion req version)
      else ret version
  end.

(** ** Promises

    Calling an [async] function runs its body up to the first suspension
    and hands back a promise.  A promise is the remainder of the body: a
    computation that is run when the promise is awaited.  Every promise
    below is awaited at most once.  The collaborators answer as functions
    of their arguments, so the order in which the scheduler resumes
    pending bodies does not change what they resolve to; the trace lists
    the calls of a pending body where it is awaited, and leaves out the
    calls of a body that is never awaited because its caller has already
    failed. *)
Definition Promise (A : Type) : Type := M A.
Definition await {A} (p : Promise A) : M A := p.

(** ** [getOpenAIClient] *)

Record ClientArgs : Type := mkClientArgs {
  ca_req : Request;
  ca_endpointOption : value;
  ca_initAppClient : value;
  ca_overrideEndpoint : option string
}.

(** The body after [await getCurrentVersion(req, endpoint)]. *)
Definition getOpenAIClient_resume (a : ClientArgs) (endpoint : option string)
    (resolved : outcome string) : M (option InitResult) :=
  let! version := lift resolved in
  if negb (truthy_str endpoint) then throw (EndpointRequired (ca_req a))
  else
    if bool_decide (endpoint = Some (E_assistants w)) then
      let! bm := get_body_model in
      let args := mkInitArgs (ca_req a) bm version
                    (ca_endpointOption a) (ca_initAppClient a) in
      let! _ := emit (EvInit false args) in
      lift (initializeClient w args)
    else if bool_decide (endpoint = Some (E_azureAssistants w)) then
      let! bm := get_body_model in
      let args := mkInitArgs (ca_req a) bm version
                    (ca_endpointOption a) (ca_initAppClient a) in
      let! _ := emit (EvInit true args) in
      lift (initAzureClient w args)
    else ret None.

(** The call: the endpoint is picked and [getCurrentVersion] is entered
    (its cache read, if any, is issued) before the first suspension; a
    failure of the version resolver is held by the promise. *)
Definition getOpenAIClient_call (a : ClientArgs)
  : M (Promise (option InitResult)) :=
  let endpoint :=
    coalesce (ca_overrideEndpoint a)
      (coalesce (body_endpoint (ca_req a)) (query_endpoint (ca_req a))) in
  fun st =>
    let (resolved, st') := getCurrentVersion (ca_req a) endpoint st in
    (Ok (getOpenAIClient_resume a endpoint resolved), st').

Definition getOpenAIClient (a : ClientArgs) : M (option InitResult) :=
  let! p := getOpenAIClient_call a in await p.

(** ** [listAssistants] *)

(** After [await getOpenAIClient(..)]: [const { openai } = ..] and the
    list call, whose promise is returned as it is. *)
Definition listAssistants_resume (query : Query)
    (p : Promise (option InitResult)) : M Page :=
  let! r := await p in
  match r with
  | None =>
      throw (TypeError "Cannot destructure property 'openai' of undefined")
  | Some ir =>
      match openai ir with
      | None =>
          throw (TypeError "Cannot read properties of undefined (reading 'beta')")
      | Some c =>
          let! _ := emit (EvList c query) in
          lift (assistants_list w c query)
      end
  end.

(** [version] is received and not passed on: [getOpenAIClient] resolves
    the version again; no endpoint override is given. *)
Definition listAssistants_call (req : Request) (version : string)
    (query : Query) : M (Promise Page) :=
  let! p := getOpenAIClient_call (mkClientArgs req VUndefined VUndefined None) in
  ret (listAssistants_resume query p).

Definition listAssistants (req : Request) (version : string) (query : Query)
  : M Page :=
  let! p := listAssistants_call req version query in await p.

(** ** [listAssistantsForAzure] *)

(** The three arrays the loop fills. *)
Record FanOut : Type := mkFanOut {
  fo_groups : list (option AzureGroup);
  fo_groupModelTuples : list ModelTuples;
  fo_promises : list (Promise Page)
}.

(** One iteration of [for (const groupName of assistantGroups)]. *)
Definition fanout_step (req : Request) (version : string) (query : Query)
    (gm : gmap string AzureGroup) (acc : FanOut) (groupName : string)
  : M FanOut :=
  let group := gm !! groupName in
  let groups := fo_groups acc ++ [group] in
  let! currentModelTuples :=
    match group with
    | Some g => ret (models g)
    | None =>
        throw (TypeError "Cannot convert undefined or null to object")
    end in
  let groupModelTuples := fo_groupModelTuples acc ++ [currentModelTuples] in
  match currentModelTuples with
  | [] => throw (TypeError "Cannot read properties of undefined (reading '0')")
  | (firstModel, _) :: _ =>
      let! _ := set_body_model (VStr firstModel) in
      let! p := listAssistants_call req version query in
      let! _ := emit EvPromise in
      ret (mkFanOut groups groupModelTuples (fo_promises acc ++ [p]))
  end.

Fixpoint fanout_loop (req : Request) (version : string) (query : Query)
    (gm : gmap string AzureGroup) (acc : FanOut) (names : list string)
  : M FanOut :=
  match names with
  | [] => ret acc
  | groupName :: rest =>
      let! acc' := fanout_step req version query gm acc groupName in
      fanout_loop req version query gm acc' rest
  end.

(** [Promise.all]: the results in the order of the promises; of several
    rejections the one of the earliest promise is reported.  The pending
    bodies are run one after the other, where the scheduler interleaves
    them: the calls of the trace are the same, their order across
    promises is not asserted anywhere. *)
Fixpoint promise_all {A} (ps : list (Promise A)) : M (list A) :=
  match ps with
  | [] => ret []
  | p :: rest =>
      let! r := await p in
      let! rs := promise_all rest in
      ret (r :: rs)
  end.

(** [for (const [model, modelConfig] of currentModelTuples)], returning
    at the first entry whose deployment is the one looked for. *)
Fixpoint scan_tuples (deployment : value) (tuples : ModelTuples)
  : option string :=
  match tuples with
  | [] => None
  | (model, modelConfig) :: rest =>
      if strict_eq (mc_deploymentName modelConfig) deployment
      then Some model
      else scan_tuples deployment rest
  end.

(** The callback of [res.data.map], once [currentGroup],
    [currentModelTuples] and [firstModel] have been read. *)
Definition remap_with (currentGroup : AzureGroup)
    (currentModelTuples : ModelTuples) (firstModel : string)
    (assistant : Assistant) : Assistant :=
  let deployment := prop assistant "model" in
  if strict_eq (deploymentName currentGroup) deployment
  then <["model" := VStr firstModel]> assistant
  else
    match scan_tuples deployment currentModelTuples with
    | Some model => <["model" := VStr model]> assistant
    | None => <["model" := VStr firstModel]> assistant
    end.

(** The callback for the page of index [i]: [groups[i]],
    [groupModelTuples[i]] and [currentModelTuples[0][0]] are read first. *)
Definition remap (groups : list (option AzureGroup))
    (groupModelTuples : list ModelTuples) (i : nat) (assistant : Assistant)
  : outcome Assistant :=
  match groupModelTuples !! i with
  | Some (((firstModel, _) :: _) as currentModelTuples) =>
      match groups !! i with
      | Some (Some currentGroup) =>
          Ok (remap_with currentGroup currentModelTuples firstModel assistant)
      | _ =>
          Throw (TypeError
                   "Cannot read properties of undefined (reading 'deploymentName')")
      end
  | _ => Throw (TypeError "Cannot read properties of undefined (reading '0')")
  end.

Fixpoint map_outcome {A B} (f : A -> outcome B) (l : list A)
  : outcome (list B) :=
  match l with
  | [] => Ok []
  | x :: rest =>
      match f x with
      | Throw e => Throw e
      | Ok y =>
          match map_outcome f rest with
          | Throw e => Throw e
          | Ok ys => Ok (y :: ys)
          end
      end
  end.

(** [resolvedQueries.flatMap((res, i) => res.data.map(..))], from index [i]. *)
Fixpoint remap_pages (groups : list (option AzureGroup))
    (groupModelTuples : list ModelTuples) (i : nat) (pages : list Page)
  : outcome (list Assistant) :=
  match pages with
  | [] => Ok []
  | res :: rest =>
      match map_outcome (remap groups groupModelTuples i) (page_data res) with
      | Throw e => Throw e
      | Ok here =>
          match remap_pages groups groupModelTuples (S i) rest with
          | Throw e => Throw e
          | Ok there => Ok (here ++ there)
          end
      end
  end.

(** [data[0]?.id] and [data[data.length - 1]?.id]. *)
Definition id_of (o : option Assistant) : value :=
  match o with
  | Some a => prop a "id"
  | None => VUndefined
  end.

Definition envelope_of (data : list Assistant) : Envelope :=
  mkEnvelope (id_of (head data)) (id_of (last data)) "list" false data.

Definition listAssistantsForAzure (req : Request) (version : string)
    (azureConfig : option AzureConfig) (query : Query) : M Envelope :=
  match azureConfig with
  | None =>
      (* the default [{}]: [assistantGroups] is undefined *)
      throw (TypeError "assistantGroups is not iterable")
  | Some cfg =>
      let! fo :=
        fanout_loop req version query (groupMap cfg) (mkFanOut [] [] [])
          (assistantGroups cfg) in
      let! _ := emit EvAwaitAll in
      let! resolvedQueries := promise_all (fo_promises fo) in
      let! data :=
        lift (remap_pages (fo_groups fo) (fo_groupModelTuples fo) 0
                resolvedQueries) in
      ret (envelope_of data)
  end.

(** ** [fetchAssistants] *)

Definition fetch_query (req : Request) : Query :=
  mkQuery (destructure_default (VNum 100) (query_limit req))
          (destructure_default (VStr "desc") (query_order req))
          (query_after req) (query_before req).

Definition fetchAssistants (req : Request) : M (option Envelope) :=
  let endpoint := query_endpoint req in
  let! version := getCurrentVersion req endpoint in
  let query := fetch_query req in
  if bool_decide (endpoint = Some (E_assistants w)) then
    let! res := listAssistants req version query in
    ret (page_body res)
  else if bool_decide (endpoint = Some (E_azureAssistants w)) then
    let! body :=
      listAssistantsForAzure req version (locals_azureConfig req) query in
    ret (Some body)
  else ret None.

End Helpers.

(** ** Vocabulary of the statements *)

(** [pat] occurs in [s]. *)
Definition contains (s pat : string) : Prop :=
  exists a b, s = a +:+ pat +:+ b.

(** The vendor list calls of a trace, in order. *)
Fixpoint list_calls (t : list event) : list (Client * Query) :=
  match t with
  | [] => []
  | EvList c q :: rest => (c, q) :: list_calls rest
  | _ :: rest => list_calls rest
  end.

(** How many promises the fan-out loop has pushed. *)
Fixpoint promises_made (t : list event) : nat :=
  match t with
  | [] => 0%nat
  | EvPromise :: rest => S (promises_made rest)
  | _ :: rest => promises_made rest
  end.

(** The initializer calls of a trace, in order. *)
Fixpoint init_calls (t : list event) : list (bool * InitArgs) :=
  match t with
  | [] => []
  | EvInit azure args :: rest => (azure, args) :: init_calls rest
  | _ :: rest => init_calls rest
  end.

(** The cache reads of a trace. *)
Fixpoint cache_reads (t : list event) : nat :=
  match t with
  | [] => 0%nat
  | EvCacheGet :: rest => S (cache_reads rest)
  | _ :: rest => cache_reads rest
  end.

(** The first configured model name of a group. *)
Definition first_model (g : AzureGroup) : string :=
  match models g with
  | (m, _) :: _ => m
  | [] => ""
  end.

(** One group's records, remapped. *)
Definition remapped (g : AzureGroup) (p : Page) : list Assistant :=
  map (remap_with g (models g) (first_model g)) (page_data p).

(** The remap as the specification words it, to be compared with the
    callback of the source: the group's first model name when the raw
    identifier is the group's default deployment; else the model name of
    the entry of the table, scanned in order, whose deployment is the
    identifier; else the first model name again. *)
Definition spec_model_name (g : AzureGroup) (raw : value) : string :=
  if decide (raw = deploymentName g) then first_model g
  else
    match List.find
            (fun entry => bool_decide (mc_deploymentName (snd entry) = raw))
            (models g) with
    | Some entry => fst entry
    | None => first_model g
    end.

(** One group's records with [model] set as the specification says and
    every other field left as the vendor gave it. *)
Definition spec_remapped (g : AzureGroup) (p : Page) : list Assistant :=
  map (fun a => <["model" := VStr (spec_model_name g (prop a "model"))]> a)
    (page_data p).

(** The token cut out of the path: ['v'] and the character after it. *)
Definition path_token (tail : string) : string :=
  match tail with
  | EmptyString => "v"
  | String c _ => String "v"%char (String c "")
  end.

(** The endpoint [getOpenAIClient] settles on. *)
Definition endpoint_of (a : ClientArgs) : option string :=
  coalesce (ca_overrideEndpoint a)
    (coalesce (body_endpoint (ca_req a)) (query_endpoint (ca_req a))).

(** What awaiting a promise of [listAssistants] can do, whatever the state
    it is awaited in: it pushes no promise and reads no cache, every list
    call it makes carries [q], and when it resolves it has made exactly
    one, whose page it resolves to. *)
Definition settles (w : World) (q : Query) (p : Promise Page) : Prop :=
  forall st, exists delta,
    snd (p st) = mkState (body_model st) (trace st ++ delta)
    /\ promises_made delta = 0%nat
    /\ cache_reads delta = 0%nat
    /\ Forall (fun cq => snd cq = q) (list_calls delta)
    /\ (forall page, fst (p st) = Ok page ->
        exists c, list_calls delta = [(c, q)]
                  /\ assistants_list w c q = Ok page).

(** A promise that resolves, whatever the state it is awaited in. *)
Definition resolves {A} (p : Promise A) : Prop :=
  forall st, exists r st', p st = (Ok r, st').

(** Every configured group is in [groupMap] and has a model. *)
Definition well_formed (cfg : AzureConfig) : Prop :=
  Forall (fun n => exists g, groupMap cfg !! n = Some g /\ models g <> [])
    (assistantGroups cfg).

(** The collaborators do their part for [req]: its endpoint (body, else
    query) is one of the two known ones, both initializers give a client
    and the vendor gives a page. *)
Definition serves (w : World) (req : Request) : Prop :=
  (exists e, coalesce (body_endpoint req) (query_endpoint req) = Some e
             /\ e <> ""
             /\ (e = E_assistants w \/ e = E_azureAssistants w))
  /\ (forall args, exists c,
        initializeClient w args = Ok (Some (mkInitResult (Some c))))
  /\ (forall args, exists c,
        initAzureClient w args = Ok (Some (mkInitResult (Some c))))
  /\ (forall c q, exists page, assistants_list w c q = Ok page).

(** ** Concrete inputs

    A deployment as the application ships it, used to run the helpers on
    explicit requests. *)

Definition plain_state : State := mkState VUndefined [].

(** A request with nothing but a base path, a body version and the two
    places an endpoint can come from. *)
Definition request_of (path : string) (version : value)
    (bodyEndpoint queryEndpoint : option string)
    (cfg : option AzureConfig) : Request :=
  mkRequest path version bodyEndpoint
    VUndefined VUndefined VUndefined VUndefined queryEndpoint cfg.

(** [{id: '1', model: 'd2'}] *)
Definition assistant_1 : Assistant :=
  <["id" := VStr "1"]> (<["model" := VStr "d2"]> ∅).

(** The direct initializer hands out client 1, the Azure one client 2;
    the vendor lists one assistant; nothing is cached. *)
Definition provider_world : World :=
  mkWorld "assistants" "azureAssistants"
    (<["assistants" := VNum 2]> (<["azureAssistants" := VNum 1]> ∅))
    None
    (fun _ => Ok (Some (mkInitResult (Some 1%nat))))
    (fun _ => Ok (Some (mkInitResult (Some 2%nat))))
    (fun _ _ => Ok (mkPage [assistant_1] None)).

(** The group [g1] of the specification's scenario. *)
Definition group_g1 : AzureGroup :=
  mkAzureGroup (VStr "d1")
    [("gpt-a", mkModelConfig (VStr "d1")); ("gpt-b", mkModelConfig (VStr "d2"))].

Definition config_g1 : AzureConfig :=
  mkAzureConfig (<["g1" := group_g1]> ∅) ["g1"].

(** What the scenario expects: [{id: '1', model: 'gpt-b'}] in its envelope. *)
Definition scenario_envelope : Envelope :=
  mkEnvelope (VStr "1") (VStr "1") "list" false
    [<["id" := VStr "1"]> (<["model" := VStr "gpt-b"]> ∅)].

(** A second group, and a configuration with both. *)
Definition group_g2 : AzureGroup :=
  mkAzureGroup (VStr "e1")
    [("gpt-c", mkModelConfig (VStr "e1")); ("gpt-d", mkModelConfig (VStr "d2"))].

Definition config_two : AzureConfig :=
  mkAzureConfig (<["g1" := group_g1]> (<["g2" := group_g2]> ∅)) ["g1"; "g2"].

(** A request for the cloud-vendor endpoint, version in the path. *)
Definition azure_request (cfg : AzureConfig) : Request :=
  request_of "/api/assistants/v1" VUndefined None (Some "azureAssistants")
    (Some cfg).

(** The same deployment with a vendor that has no assistant to list. *)
Definition quiet_world : World :=
  mkWorld "assistants" "azureAssistants"
    (<["assistants" := VNum 2]> (<["azureAssistants" := VNum 1]> ∅))
    None
    (fun _ => Ok (Some (mkInitResult (Some 1%nat))))
    (fun _ => Ok (Some (mkInitResult (Some 2%nat))))
    (fun _ _ => Ok (mkPage [] None)).

Definition empty_envelope : Envelope :=
  mkEnvelope VUndefined VUndefined "list" false [].

(** ** Vocabulary of the further properties *)

(** Neither the path nor the body supplies a version and an endpoint name
    is there: the one case in which [getCurrentVersion] reads the cache. *)
Definition from_cache (req : Request) (endpoint : option string) : bool :=
  (lastIndexOf (baseUrl req) "/v" =? -1)
  && negb (truthy (body_version req))
  && truthy_str endpoint.

(** The cache reads one call of [getCurrentVersion] makes. *)
Definition version_reads (req : Request) (endpoint : option string)
  : list event :=
  if from_cache req endpoint then [EvCacheGet] else [].

(** The endpoint [listAssistants] ends up with: no override is passed. *)
Definition lister_endpoint (req : Request) : option string :=
  coalesce (body_endpoint req) (query_endpoint req).

(** A group name the loop cannot go past: absent from [groupMap], or
    with an empty [models] table. *)
Definition ill_configured (gm : gmap string AzureGroup) (name : string) : Prop :=
  gm !! name = None \/ exists g, gm !! name = Some g /\ models g = [].

Definition configured (gm : gmap string AzureGroup) (name : string) : Prop :=
  exists g, gm !! name = Some g /\ models g <> [].

(** A promise whose initializer call, when it resolves, sees
    [req.body.model] as it is at the time the promise is awaited. *)
Definition pins_model (p : Promise Page) : Prop :=
  forall st page st', p st = (Ok page, st') ->
    exists azure args c q,
      st' = mkState (body_model st) (trace st ++ [EvInit azure args; EvList c q])
      /\ ia_body_model args = body_model st.

(** What remapping does to one record of group [g]. *)
Definition remapped_from (g : AzureGroup) (out raw : Assistant) : Prop :=
  (forall k, k <> "model" -> out !! k = raw !! k)
  /\ exists m, m ∈ map fst (models g) /\ out !! "model" = Some (VStr m).

(** What the loop of the multi-deployment lister adds to the trace while
    it goes through [n] groups: per group, the cache read of the version
    resolution, if any, and the promise pushed. *)
Definition spawn_trace (req : Request) (n : nat) : list event :=
  concat (replicate n (version_reads req (lister_endpoint req) ++ [EvPromise])).

(** [req.body.model] after the loop has gone through [names]: the first
    model of the last group, [bm] when there is no group. *)
Definition final_model (gm : gmap string AzureGroup) (names : list string)
    (bm : value) : value :=
  match last names with
  | Some n =>
      match gm !! n with
      | Some g => VStr (first_model g)
      | None => bm
      end
  | None => bm
  end.

(** A deployment whose direct initializer rejects, one whose vendor
    rejects, and one with a version cached for the direct endpoint. *)
Definition refusing_world : World :=
  mkWorld "assistants" "azureAssistants"
    (<["assistants" := VNum 2]> (<["azureAssistants" := VNum 1]> ∅))
    None
    (fun _ => Throw (Rejected 401))
    (fun _ => Ok (Some (mkInitResult (Some 2%nat))))
    (fun _ _ => Ok (mkPage [assistant_1] None)).

Definition outage_world : World :=
  mkWorld "assistants" "azureAssistants"
    (<["assistants" := VNum 2]> (<["azureAssistants" := VNum 1]> ∅))
    None
    (fun _ => Ok (Some (mkInitResult (Some 1%nat))))
    (fun _ => Ok (Some (mkInitResult (Some 2%nat))))
    (fun _ _ => Throw (Rejected 503)).

(** A configuration naming a group that [groupMap] does not have. *)
Definition config_dangling : AzureConfig :=
  mkAzureConfig (<["g1" := group_g1]> ∅) ["g1"; "g9"; "g1"].

(** ** Facts about the string primitives *)

Section StringFacts.

Lemma append_nil (t : string) : "" +:+ t = t.
Proof. reflexivity. Qed.

Lemma append_cons (c : ascii) (a t : string) :
  String c a +:+ t = String c (a +:+ t).
Proof. reflexivity. Qed.

Lemma prefix_append (p t : string) : String.prefix p (p +:+ t) = true.
Proof.
  induction p as [|c p IH].
  - rewrite append_nil. destruct t; reflexivity.
  - rewrite append_cons. simpl.
    destruct (ascii_dec c c) as [_|n]; [exact IH | contradiction].
Qed.

Lemma prefix_split (p s : string) :
  String.prefix p s = true -> exists t, s = p +:+ t.
Proof.
  revert s. induction p as [|c p IH]; intros s H.
  - exists s. reflexivity.
  - destruct s as [|d s]; simpl in H; [discriminate|].
    destruct (ascii_dec c d) as [->|_]; [|discriminate].
    destruct (IH s H) as [t ->]. exists t. reflexivity.
Qed.

Lemma length_append (a b : string) :
  String.length (a +:+ b) = (String.length a + String.length b)%nat.
Proof.
  induction a as [|x a IH]; [reflexivity|].
  rewrite append_cons. simpl. f_equal. exact IH.
Qed.

Lemma contains_cons (c : ascii) (s pat : string) :
  contains s pat -> contains (String c s) pat.
Proof. intros (a & b & ->). exists (String c a), b. reflexivity. Qed.

Lemma contains_prefix (s pat : string) :
  String.prefix pat s = true -> contains s pat.
Proof.
  intros H. destruct (prefix_split _ _ H) as [t ->]. exists "", t. reflexivity.
Qed.

(** Nothing found: the accumulator comes back. *)
Lemma lastIndexOf_from_absent (pat s : string) (i acc : Z) :
  ~ contains s pat -> lastIndexOf_from pat s i acc = acc.
Proof.
  revert i acc. induction s as [|c s IH]; intros i acc H.
  - simpl. destruct pat; [|reflexivity].
    exfalso. apply H. exists "", "". reflexivity.
  - cbn [lastIndexOf_from].
    destruct (String.prefix pat (String c s)) eqn:E.
    + exfalso. apply H. now apply contains_prefix.
    + apply IH. intros Hc. apply H. now apply contains_cons.
Qed.

(** The result is the accumulator or the offset of an occurrence. *)
Lemma lastIndexOf_from_found (pat s : string) (i acc : Z) :
  lastIndexOf_from pat s i acc = acc \/
  exists pre tail, s = pre +:+ pat +:+ tail /\
    lastIndexOf_from pat s i acc = i + Z.of_nat (String.length pre).
Proof.
  revert i acc. induction s as [|c s IH]; intros i acc.
  - simpl. destruct pat; [|now left].
    right. exists "", "". simpl. split; [reflexivity | lia].
  - cbn [lastIndexOf_from].
    destruct (IH (i + 1) (if String.prefix pat (String c s) then i else acc))
      as [H | (pre & tail & -> & H)].
    + rewrite H. destruct (String.prefix pat (String c s)) eqn:E; [|now left].
      right. destruct (prefix_split _ _ E) as [t Ht].
      exists "", t. simpl. split; [exact Ht | lia].
    + right. exists (String c pre), tail. split; [reflexivity|].
      rewrite H. simpl String.length. lia.
Qed.

(** With an occurrence in [s] the scan does not fall back on [acc]. *)
Lemma lastIndexOf_from_present (pat s : string) (i acc : Z) :
  acc < i -> contains s pat -> i <= lastIndexOf_from pat s i acc.
Proof.
  revert i acc. induction s as [|c s IH]; intros i acc Hlt (a & b & Hs).
  - destruct a; [|discriminate]. destruct pat; [|discriminate].
    simpl. lia.
  - cbn [lastIndexOf_from]. destruct a as [|x a].
    + rewrite append_nil in Hs. rewrite Hs at 1. rewrite prefix_append.
      destruct (lastIndexOf_from_found pat s (i + 1) i)
        as [H | (pre & tail & _ & H)]; rewrite H; lia.
    + rewrite append_cons in Hs. injection Hs as _ Hs.
      assert (Hc : contains s pat) by (exists a, b; exact Hs).
      pose proof (IH (i + 1)
        (if String.prefix pat (String c s) then i else acc)
        ltac:(destruct (String.prefix pat (String c s)); lia) Hc).
      lia.
Qed.

Lemma lastIndexOf_absent (s pat : string) :
  ~ contains s pat -> lastIndexOf s pat = -1.
Proof. apply lastIndexOf_from_absent. Qed.

Lemma lastIndexOf_present (s pat : string) :
  contains s pat ->
  exists pre tail, s = pre +:+ pat +:+ tail /\
    lastIndexOf s pat = Z.of_nat (String.length pre).
Proof.
  intros Hc. unfold lastIndexOf.
  pose proof (lastIndexOf_from_present pat s 0 (-1) ltac:(lia) Hc) as Hge.
  destruct (lastIndexOf_from_found pat s 0 (-1))
    as [H | (pre & tail & Hs & H)]; [lia|].
  exists pre, tail. split; [exact Hs | lia].
Qed.

Lemma not_contains_by_scan (s pat : string) :
  lastIndexOf s pat = -1 -> ~ contains s pat.
Proof.
  intros H Hc. destruct (lastIndexOf_present s pat Hc) as (pre & tail & _ & Hi).
  lia.
Qed.

(** The last occurrence: nothing of [pat] starts further right. *)
Lemma lastIndexOf_from_last (c : ascii) (pat' pre tail : string) (i acc : Z) :
  ~ contains (pat' +:+ tail) (String c pat') ->
  lastIndexOf_from (String c pat') (pre +:+ String c pat' +:+ tail) i acc
  = i + Z.of_nat (String.length pre).
Proof.
  intros Hno. revert i acc. induction pre as [|x pre IH]; intros i acc.
  - rewrite append_nil.
    pose proof (prefix_append (String c pat') tail) as Hp.
    rewrite append_cons in *. cbn [lastIndexOf_from]. rewrite Hp.
    rewrite lastIndexOf_from_absent by exact Hno. simpl. lia.
  - rewrite append_cons. cbn [lastIndexOf_from]. rewrite IH.
    simpl String.length. lia.
Qed.

Lemma substring_skip (pre t : string) (n m : nat) :
  String.substring (String.length pre + n) m (pre +:+ t) = String.substring n m t.
Proof.
  induction pre as [|x pre IH]; [reflexivity|].
  rewrite append_cons. simpl. exact IH.
Qed.

Lemma js_substring_skip (pre t : string) (a b : Z) :
  0 <= a <= b ->
  js_substring (pre +:+ t) (Z.of_nat (String.length pre) + a)
    (Z.of_nat (String.length pre) + b)
  = js_substring t a b.
Proof.
  intros H. unfold js_substring. rewrite length_append.
  set (lp := String.length pre). set (lt := String.length t).
  match goal with
  | |- String.substring ?n ?m _ = String.substring ?n' ?m' _ =>
      replace n with (lp + n')%nat by lia; replace m with m' by lia
  end.
  apply substring_skip.
Qed.

End StringFacts.

(** ** Traces *)

Section TraceFacts.

Lemma list_calls_app (t u : list event) :
  list_calls (t ++ u) = list_calls t ++ list_calls u.
Proof.
  induction t as [|ev t IH]; [reflexivity|].
  destruct ev; simpl; rewrite IH; reflexivity.
Qed.

Lemma init_calls_app (t u : list event) :
  init_calls (t ++ u) = init_calls t ++ init_calls u.
Proof.
  induction t as [|ev t IH]; [reflexivity|].
  destruct ev; simpl; rewrite IH; reflexivity.
Qed.

Lemma promises_made_app (t u : list event) :
  promises_made (t ++ u) = (promises_made t + promises_made u)%nat.
Proof.
  induction t as [|ev t IH]; [reflexivity|].
  destruct ev; simpl; rewrite IH; reflexivity.
Qed.

Lemma cache_reads_app (t u : list event) :
  cache_reads (t ++ u) = (cache_reads t + cache_reads u)%nat.
Proof.
  induction t as [|ev t IH]; [reflexivity|].
  destruct ev; simpl; rewrite IH; reflexivity.
Qed.

End TraceFacts.

(** ** Facts about [getCurrentVersion] *)

Section VersionFacts.

Variable w : World.

Lemma startsWith_v (x : string) : startsWith ("v" +:+ x) "v" = true.
Proof. unfold startsWith. apply prefix_append. Qed.

Lemma truthy_v (x : string) : truthy_str (Some ("v" +:+ x)) = true.
Proof. reflexivity. Qed.

Lemma js_substring_token (tail : string) :
  js_substring ("/v" +:+ tail) 1 3 = path_token tail.
Proof.
  destruct tail as [|c rest]; [reflexivity|].
  unfold js_substring. rewrite !append_cons, append_nil.
  cbn [String.length].
  match goal with
  | |- String.substring ?n ?m _ = _ =>
      replace n with 1%nat by lia; replace m with 2%nat by lia
  end.
  destruct rest; reflexivity.
Qed.

Lemma path_token_v (tail : string) : exists x, path_token tail = "v" +:+ x.
Proof. destruct tail as [|c rest]; [exists "" | exists (String c "")]; reflexivity. Qed.

Lemma not_contains_after_v (tail : string) :
  ~ contains tail "/v" -> ~ contains ("v" +:+ tail) "/v".
Proof.
  intros H (a & b & E). destruct a as [|x a].
  - rewrite append_nil, !append_cons in E. discriminate.
  - rewrite !append_cons in E. injection E as _ E. rewrite append_nil in E.
    apply H. exists a, b. exact E.
Qed.

(** The path decides as soon as it holds a ['/v']. *)
Lemma getCurrentVersion_at (req : Request) (ep : option string) (st : State)
    (pre tail : string) :
  baseUrl req = pre +:+ "/v" +:+ tail ->
  lastIndexOf (baseUrl req) "/v" = Z.of_nat (String.length pre) ->
  getCurrentVersion w req ep st = (Ok (path_token tail), st).
Proof.
  intros Hb Hi. unfold getCurrentVersion. rewrite Hi.
  destruct (Z.eqb_spec (Z.of_nat (String.length pre)) (-1)) as [E|_]; [lia|].
  rewrite Hb.
  rewrite (js_substring_skip pre ("/v" +:+ tail) 1 3) by lia.
  rewrite js_substring_token.
  destruct (path_token_v tail) as [x ->].
  repeat (rewrite truthy_v; cbn [negb andb]). unfold bind, ret.
  rewrite startsWith_v. reflexivity.
Qed.

Lemma contains_dec (s pat : string) : contains s pat \/ ~ contains s pat.
Proof.
  destruct (lastIndexOf_from_found pat s 0 (-1)) as [H | (pre & tail & E & _)].
  - right. intros Hc.
    destruct (lastIndexOf_present s pat Hc) as (pre & tail & _ & Hi).
    unfold lastIndexOf in Hi. lia.
  - left. exists pre, tail. exact E.
Qed.

(** The four ways the resolver ends. *)
Lemma getCurrentVersion_cases (req : Request) (ep : option string) (st : State) :
  (contains (baseUrl req) "/v" /\
   exists x, getCurrentVersion w req ep st = (Ok ("v" +:+ x), st))
  \/ (~ contains (baseUrl req) "/v" /\ truthy (body_version req) = true /\
      getCurrentVersion w req ep st
      = (Ok ("v" +:+ to_string (body_version req)), st))
  \/ (~ contains (baseUrl req) "/v" /\ truthy (body_version req) = false /\
      truthy_str ep = true /\
      getCurrentVersion w req ep st
      = (Ok ("v" +:+ to_string (configured_version w (default "" ep))),
         mkState (body_model st) (trace st ++ [EvCacheGet])))
  \/ (~ contains (baseUrl req) "/v" /\ truthy (body_version req) = false /\
      truthy_str ep = false /\
      exists what, getCurrentVersion w req ep st = (Throw (TypeError what), st)).
Proof.
  destruct (contains_dec (baseUrl req) "/v") as [Hc | Hn].
  - left. split; [exact Hc|].
    destruct (lastIndexOf_present _ _ Hc) as (pre & tail & Hb & Hi).
    destruct (path_token_v tail) as [x Hx]. exists x. rewrite <- Hx.
    now apply getCurrentVersion_at with (pre := pre).
  - right. pose proof (lastIndexOf_absent _ _ Hn) as Hi.
    unfold getCurrentVersion. rewrite Hi.
    change (-1 =? -1) with true. cbv iota. cbn [truthy_str negb andb].
    destruct (truthy (body_version req)) eqn:Hb.
    + left. repeat split; try assumption.
      repeat (rewrite truthy_v; cbn [negb andb]). unfold bind, ret.
      rewrite startsWith_v. reflexivity.
    + right. cbn [truthy_str negb andb]. destruct (truthy_str ep) eqn:He.
      * left. repeat split; try assumption.
        unfold bind, ret, emit. rewrite startsWith_v. reflexivity.
      * right. repeat split; try assumption.
        eexists. reflexivity.
Qed.

End VersionFacts.

(** ** [getOpenAIClient] and [fetchAssistants] on the version they resolve *)

Section ClientFacts.

Variable w : World.

Lemma truthy_str_nonempty (e : string) : e <> "" -> truthy_str (Some e) = true.
Proof.
  intros H. unfold truthy_str. apply negb_true_iff. now apply String.eqb_neq.
Qed.

(** With an endpoint name the resolver always produces a version. *)
Lemma getCurrentVersion_with_endpoint (req : Request) (ep : option string)
    (st : State) :
  truthy_str ep = true ->
  exists v st', getCurrentVersion w req ep st = (Ok v, st').
Proof.
  intros He.
  destruct (getCurrentVersion_cases w req ep st)
    as [(_ & x & H) | [(_ & _ & H) | [(_ & _ & _ & H) | (_ & _ & He' & _)]]];
    try (rewrite H; eauto); congruence.
Qed.

(** Without one it reads no cache and leaves the state as it is. *)
Lemma getCurrentVersion_without_endpoint (req : Request) (ep : option string)
    (st : State) :
  truthy_str ep = false -> snd (getCurrentVersion w req ep st) = st.
Proof.
  intros He.
  destruct (getCurrentVersion_cases w req ep st)
    as [(_ & x & H) | [(_ & _ & H) | [(_ & _ & He' & _) | (_ & _ & _ & x & H)]]];
    try (rewrite H; reflexivity); congruence.
Qed.

(** Call and await in one go: the version is resolved, then the rest runs. *)
Lemma getOpenAIClient_eq (a : ClientArgs) (st : State) :
  getOpenAIClient w a st
  = getOpenAIClient_resume w a (endpoint_of a)
      (fst (getCurrentVersion w (ca_req a) (endpoint_of a) st))
      (snd (getCurrentVersion w (ca_req a) (endpoint_of a) st)).
Proof.
  unfold getOpenAIClient, getOpenAIClient_call, bind, await, endpoint_of.
  destruct (getCurrentVersion w (ca_req a) _ st); reflexivity.
Qed.

End ClientFacts.

(** ** The claims about version and client resolution *)

(** C1 (the code departs from it).  The validation of the resolved token
    never rejects anything: no input makes [getCurrentVersion] raise
    [InvalidVersion].  A body version ["10"] comes back as ["v10"], and an
    endpoint with neither a cached nor a default version as
    ["vundefined"], both returned as if valid. *)
Theorem getCurrentVersion_validation_never_rejects :
  (forall w req ep st version,
      fst (getCurrentVersion w req ep st) <> Throw (InvalidVersion req version))
  /\ getCurrentVersion provider_world
       (request_of "/api/assistants" (VStr "10") None None None) None plain_state
     = (Ok "v10", plain_state)
  /\ fst (getCurrentVersion provider_world
            (request_of "/api/assistants" VUndefined None (Some "custom") None)
            (Some "custom") plain_state)
     = Ok "vundefined".
Proof.
  split; [|split; reflexivity].
  intros w req ep st version.
  destruct (getCurrentVersion_cases w req ep st)
    as [(_ & x & H) | [(_ & _ & H) | [(_ & _ & _ & H) | (_ & _ & _ & x & H)]]];
    rewrite H; simpl; unfold InvalidVersion; congruence.
Qed.




(** C2, the claim as written, fails when nothing supplies a version: with
    no endpoint, no ['/v'] in the path and no body version, the failure
    of the version resolver comes first and [EndpointRequired] is not
    what the caller sees. *)
Lemma getOpenAIClient_no_endpoint_no_version :
  let req := request_of "/api/assistants" VUndefined None None None in
  let a := mkClientArgs req VUndefined VUndefined None in
  endpoint_of a = None
  /\ fst (getOpenAIClient provider_world a plain_state)
     = Throw (TypeError "Cannot read properties of null (reading 'length')")
  /\ fst (getOpenAIClient provider_world a plain_state)
     <> Throw (EndpointRequired req).
Proof. repeat split; vm_compute; congruence. Qed.

(** C2 (amended).  When no endpoint is derivable from the override, the
    body or the query, [getOpenAIClient] reads no cache and calls no
    initializer (the state, trace included, is left as it was), and it
    raises [EndpointRequired], whose message holds the base path, as soon
    as the path or the body supplies a version. *)
Theorem getOpenAIClient_endpoint_required (w : World) (a : ClientArgs)
    (st : State) :
  truthy_str (endpoint_of a) = false ->
  snd (getOpenAIClient w a st) = st
  /\ (contains (baseUrl (ca_req a)) "/v"
      \/ truthy (body_version (ca_req a)) = true ->
      fst (getOpenAIClient w a st) = Throw (EndpointRequired (ca_req a))).
Proof.
  intros He. rewrite getOpenAIClient_eq.
  destruct (getCurrentVersion_cases w (ca_req a) (endpoint_of a) st)
    as [(Hc & x & H) | [(Hn & Hb & H) | [(_ & _ & He' & _) | (Hn & Hb & _ & x & H)]]];
    try congruence; rewrite H; cbn [fst snd];
    unfold getOpenAIClient_resume, bind, lift, throw; rewrite ?He; cbn [negb].
  - split; [reflexivity | intros _; reflexivity].
  - split; [reflexivity | intros _; reflexivity].
  - split; [reflexivity|]. intros [Hc | Hb']; [contradiction | congruence].
Qed.

Lemma getOpenAIClient_endpoint_required_witness :
  let a := mkClientArgs
             (request_of "/api/assistants/v2" VUndefined None None None)
             VUndefined VUndefined None in
  snd (getOpenAIClient provider_world a plain_state) = plain_state
  /\ fst (getOpenAIClient provider_world a plain_state)
     = Throw (JsError "[/api/assistants/v2] Endpoint is required").
Proof.
  intros a.
  destruct (getOpenAIClient_endpoint_required provider_world a plain_state
              eq_refl) as [H1 H2].
  split; [exact H1|].
  rewrite H2; [reflexivity|].
  left. exists "/api/assistants", "2". reflexivity.
Defined.

(** A non-empty endpoint name that is neither of the two known ones:
    both functions resolve to [undefined] and stay quiet. *)
Lemma named_unknown_endpoint (w : World) (e : string) :
  e <> "" -> e <> E_assistants w -> e <> E_azureAssistants w ->
  (forall a st,
      endpoint_of a = Some e ->
      fst (getOpenAIClient w a st) = Ok None
      /\ init_calls (trace (snd (getOpenAIClient w a st))) = init_calls (trace st)
      /\ list_calls (trace (snd (getOpenAIClient w a st))) = list_calls (trace st))
  /\ (forall req st,
      query_endpoint req = Some e ->
      fst (fetchAssistants w req st) = Ok None
      /\ init_calls (trace (snd (fetchAssistants w req st))) = init_calls (trace st)
      /\ list_calls (trace (snd (fetchAssistants w req st))) = list_calls (trace st)).
Proof.
  intros He H1 H2.
  assert (Hquiet : forall req st,
             init_calls (trace (snd (getCurrentVersion w req (Some e) st)))
             = init_calls (trace st)
             /\ list_calls (trace (snd (getCurrentVersion w req (Some e) st)))
                = list_calls (trace st)).
  { intros req st.
    destruct (getCurrentVersion_cases w req (Some e) st)
      as [(_ & x & H) | [(_ & _ & H) | [(_ & _ & _ & H) | (_ & _ & _ & x & H)]]];
      rewrite H; cbn [snd trace]; try (split; reflexivity).
    rewrite init_calls_app, list_calls_app. simpl. now rewrite !app_nil_r. }
  split.
  - intros a st Ha. rewrite getOpenAIClient_eq, Ha.
    destruct (getCurrentVersion_with_endpoint w (ca_req a) (Some e) st
                (truthy_str_nonempty e He)) as (v & st' & Hv).
    pose proof (Hquiet (ca_req a) st) as Hq. rewrite Hv in *. cbn [fst snd] in *.
    unfold getOpenAIClient_resume, bind, lift, ret.
    rewrite (truthy_str_nonempty e He). cbn [negb].
    rewrite !bool_decide_eq_false_2 by congruence.
    cbn [fst snd]. exact (conj eq_refl Hq).
  - intros req st Hq. unfold fetchAssistants, bind. rewrite Hq.
    destruct (getCurrentVersion_with_endpoint w req (Some e) st
                (truthy_str_nonempty e He)) as (v & st' & Hv).
    pose proof (Hquiet req st) as Hq'. rewrite Hv in *. cbn [fst snd] in *.
    rewrite !bool_decide_eq_false_2 by congruence.
    unfold ret. cbn [fst snd]. exact (conj eq_refl Hq').
Qed.

(** C7, the claim as written, fails for [fetchAssistants] on an empty
    endpoint: with [endpoint] empty in the query, which is neither of the
    two known endpoints, and no version in the path or the body, the
    version resolver fails first and [fetchAssistants] raises. *)
Lemma fetchAssistants_empty_endpoint_raises :
  let req := request_of "/api/assistants" VUndefined None (Some "") None in
  query_endpoint req = Some ""
  /\ "" <> E_assistants provider_world
  /\ "" <> E_azureAssistants provider_world
  /\ fst (fetchAssistants provider_world req plain_state)
     = Throw (TypeError "Cannot read properties of null (reading 'length')")
  /\ fst (fetchAssistants provider_world req plain_state) <> Ok None.
Proof. repeat split; vm_compute; congruence. Qed.

(** C7 (amended).  For an endpoint that is neither the direct-provider
    one nor the cloud-vendor one, [getOpenAIClient], given the endpoint is
    non-empty, and [fetchAssistants], given the endpoint is non-empty or
    the path or the body supplies a version, resolve to [undefined]:
    neither raises, calls an initializer or lists.  (The one cache read
    made when neither path nor body supplies a version is taken to
    resolve.) *)
Theorem unknown_endpoint_yields_undefined (w : World) :
  (forall e a st,
      e <> "" -> e <> E_assistants w -> e <> E_azureAssistants w ->
      endpoint_of a = Some e ->
      fst (getOpenAIClient w a st) = Ok None
      /\ init_calls (trace (snd (getOpenAIClient w a st))) = init_calls (trace st)
      /\ list_calls (trace (snd (getOpenAIClient w a st))) = list_calls (trace st))
  /\ (forall req st,
      query_endpoint req <> Some (E_assistants w) ->
      query_endpoint req <> Some (E_azureAssistants w) ->
      truthy_str (query_endpoint req) = true
      \/ contains (baseUrl req) "/v"
      \/ truthy (body_version req) = true ->
      fst (fetchAssistants w req st) = Ok None
      /\ init_calls (trace (snd (fetchAssistants w req st))) = init_calls (trace st)
      /\ list_calls (trace (snd (fetchAssistants w req st))) = list_calls (trace st)).
Proof.
  split.
  - intros e a st He H1 H2 Ha.
    now apply (named_unknown_endpoint w e He H1 H2).
  - intros req st H1 H2 Hsome.
    destruct (truthy_str (query_endpoint req)) eqn:Ht.
    + destruct (query_endpoint req) as [e|] eqn:Hq; [|discriminate Ht].
      assert (He : e <> "").
      { intros ->. discriminate Ht. }
      apply (named_unknown_endpoint w e He); congruence.
    + destruct Hsome as [Hf | Hversion]; [discriminate Hf|].
      unfold fetchAssistants, bind, ret.
      destruct (getCurrentVersion_cases w req (query_endpoint req) st)
        as [(_ & x & H) | [(_ & _ & H) | [(_ & _ & He & _) | (Hn & Hb & _)]]].
      * rewrite H, !bool_decide_eq_false_2 by assumption. repeat split.
      * rewrite H, !bool_decide_eq_false_2 by assumption. repeat split.
      * congruence.
      * destruct Hversion as [Hc | Hb']; [contradiction | congruence].
Qed.

Lemma unknown_endpoint_yields_undefined_witness :
  fst (getOpenAIClient provider_world
         (mkClientArgs (request_of "/api/assistants" VUndefined None None None)
            VUndefined VUndefined (Some "agents"))
         plain_state) = Ok None
  /\ fst (fetchAssistants provider_world
            (request_of "/api/assistants" VUndefined None (Some "agents") None)
            plain_state) = Ok None
  /\ fst (fetchAssistants provider_world
            (request_of "/api/assistants/v2" VUndefined None (Some "") None)
            plain_state) = Ok None.
Proof.
  destruct (unknown_endpoint_yields_undefined provider_world) as [H1 H2].
  split; [|split].
  - apply (H1 "agents"); try discriminate. reflexivity.
  - apply H2; try discriminate. left. reflexivity.
  - apply H2; try discriminate. right. left.
    exists "/api/assistants", "2". reflexivity.
Defined.

(** ** Facts about [listAssistants] *)

Section ListerFacts.

Variable w : World.

Lemma bind_ok {A B} (m : M A) (k : A -> M B) (st st' : State) (b : B) :
  bind m k st = (Ok b, st') ->
  exists a st1, m st = (Ok a, st1) /\ k a st1 = (Ok b, st').
Proof.
  unfold bind. destruct (m st) as [[a|e] st1]; intros H; [eauto | discriminate].
Qed.

(** Awaiting the promise of [listAssistants]: on success the initializer
    the endpoint selects was called once, on the request as it is then,
    and the single list call went to the client it gave. *)
Lemma listAssistants_resume_spec (a : ClientArgs) (ep : option string)
    (resolved : outcome string) (q : Query) (st : State) :
  let p := listAssistants_resume w q (getOpenAIClient_resume w a ep resolved) in
  match fst (p st) with
  | Ok page =>
      exists v azure c,
        let args := mkInitArgs (ca_req a) (body_model st) v
                      (ca_endpointOption a) (ca_initAppClient a) in
        resolved = Ok v
        /\ ((azure = false /\ ep = Some (E_assistants w)
             /\ initializeClient w args = Ok (Some (mkInitResult (Some c))))
            \/ (azure = true /\ ep <> Some (E_assistants w)
                /\ ep = Some (E_azureAssistants w)
                /\ initAzureClient w args = Ok (Some (mkInitResult (Some c)))))
        /\ snd (p st)
           = mkState (body_model st) (trace st ++ [EvInit azure args; EvList c q])
        /\ assistants_list w c q = Ok page
  | Throw _ =>
      exists delta,
        snd (p st) = mkState (body_model st) (trace st ++ delta)
        /\ promises_made delta = 0%nat
        /\ cache_reads delta = 0%nat
        /\ Forall (fun cq => snd cq = q) (list_calls delta)
  end.
Proof.
  assert (Hst : st = mkState (body_model st) (trace st ++ []))
    by (rewrite app_nil_r; destruct st; reflexivity).
  cbv zeta.
  unfold listAssistants_resume, getOpenAIClient_resume, await, bind, lift,
    throw, ret, emit, get_body_model.
  destruct resolved as [v|e]; cbn [fst snd].
  2:{ exists []. repeat split; [exact Hst | constructor]. }
  destruct (truthy_str ep); cbn [negb fst snd].
  2:{ exists []. repeat split; [exact Hst | constructor]. }
  destruct (bool_decide (ep = Some (E_assistants w))) eqn:E1.
  - apply bool_decide_eq_true_1 in E1.
    destruct (initializeClient w _) as [[[[c|]]|]|e] eqn:Ei;
      cbn [fst snd body_model trace openai]; rewrite <- ?app_assoc; cbn [app];
      [destruct (assistants_list w c q) as [page|e] eqn:El; cbn [fst snd]|..].
    + exists v, false, c. cbv zeta. rewrite Ei. repeat split; eauto.
    + eexists. split; [reflexivity|]. repeat split; repeat constructor.
    + eexists. split; [reflexivity|]. repeat split; repeat constructor.
    + eexists. split; [reflexivity|]. repeat split; repeat constructor.
    + eexists. split; [reflexivity|]. repeat split; repeat constructor.
  - apply bool_decide_eq_false_1 in E1.
    destruct (bool_decide (ep = Some (E_azureAssistants w))) eqn:E2.
    + apply bool_decide_eq_true_1 in E2.
      destruct (initAzureClient w _) as [[[[c|]]|]|e] eqn:Ei;
        cbn [fst snd body_model trace openai]; rewrite <- ?app_assoc; cbn [app];
        [destruct (assistants_list w c q) as [page|e] eqn:El; cbn [fst snd]|..].
      * exists v, true, c. cbv zeta. rewrite Ei. repeat split; eauto.
      * eexists. split; [reflexivity|]. repeat split; repeat constructor.
      * eexists. split; [reflexivity|]. repeat split; repeat constructor.
      * eexists. split; [reflexivity|]. repeat split; repeat constructor.
      * eexists. split; [reflexivity|]. repeat split; repeat constructor.
    + cbn [fst snd]. exists []. repeat split; [exact Hst | constructor].
Qed.

Lemma settles_resume (a : ClientArgs) (ep : option string)
    (resolved : outcome string) (q : Query) :
  settles w q (listAssistants_resume w q (getOpenAIClient_resume w a ep resolved)).
Proof.
  intros st. pose proof (listAssistants_resume_spec a ep resolved q st) as H.
  cbv zeta in H.
  destruct (fst (listAssistants_resume w q
                   (getOpenAIClient_resume w a ep resolved) st)) as [page|e].
  - destruct H as (v & azure & c & _ & _ & Hs & Hl).
    eexists. split; [exact Hs|]. repeat split.
    + repeat constructor.
    + intros page' [= <-]. exists c. split; [reflexivity | exact Hl].
  - destruct H as (delta & Hs & Hp & Hc & Hq).
    exists delta. repeat split; try assumption. intros page' [=].
Qed.

(** The resolver extends the trace by at most one cache read. *)
Lemma getCurrentVersion_trace (req : Request) (ep : option string) (st : State) :
  exists reads,
    snd (getCurrentVersion w req ep st)
    = mkState (body_model st) (trace st ++ reads)
    /\ (reads = [] \/ reads = [EvCacheGet]).
Proof.
  assert (Hst : st = mkState (body_model st) (trace st ++ []))
    by (rewrite app_nil_r; destruct st; reflexivity).
  destruct (getCurrentVersion_cases w req ep st)
    as [(_ & x & H) | [(_ & _ & H) | [(_ & _ & _ & H) | (_ & _ & _ & x & H)]]];
    rewrite H; cbn [snd]; eauto.
Qed.

(** Calling [listAssistants]: nothing but the version resolution happens
    before the promise is handed back, and the call itself never throws. *)
Lemma listAssistants_call_eq (req : Request) (version : string) (q : Query)
    (st : State) :
  let a := mkClientArgs req VUndefined VUndefined None in
  listAssistants_call w req version q st
  = (Ok (listAssistants_resume w q
           (getOpenAIClient_resume w a (endpoint_of a)
              (fst (getCurrentVersion w req (endpoint_of a) st)))),
     snd (getCurrentVersion w req (endpoint_of a) st)).
Proof.
  cbv zeta.
  unfold listAssistants_call, getOpenAIClient_call, bind, ret, endpoint_of.
  cbn [ca_req ca_overrideEndpoint].
  destruct (getCurrentVersion w req _ st); reflexivity.
Qed.

Lemma listAssistants_eq (req : Request) (version : string) (q : Query)
    (st : State) :
  let a := mkClientArgs req VUndefined VUndefined None in
  listAssistants w req version q st
  = listAssistants_resume w q
      (getOpenAIClient_resume w a (endpoint_of a)
         (fst (getCurrentVersion w req (endpoint_of a) st)))
      (snd (getCurrentVersion w req (endpoint_of a) st)).
Proof.
  cbv zeta. unfold listAssistants, bind at 1.
  rewrite listAssistants_call_eq. reflexivity.
Qed.

End ListerFacts.

(** ** The claims about the direct lister *)

(** C8, the claim as written, fails: with the cloud-vendor endpoint named
    in the query, [listAssistants] lists with client 2, the one the Azure
    initializer produced, while the direct-provider initializer would
    have produced client 1 and is not called at all. *)
Lemma listAssistants_follows_request_endpoint :
  let req := request_of "/api/assistants/v1" VUndefined None
               (Some "azureAssistants") None in
  let q := mkQuery (VNum 100) (VStr "desc") VUndefined VUndefined in
  let run := listAssistants provider_world req "v1" q plain_state in
  (forall args, initializeClient provider_world args
                = Ok (Some (mkInitResult (Some 1%nat))))
  /\ fst run = Ok (mkPage [assistant_1] None)
  /\ list_calls (trace (snd run)) = [(2%nat, q)]
  /\ map fst (init_calls (trace (snd run))) = [true].
Proof. repeat split. Qed.

(** C8 (amended).  [listAssistants] forces no endpoint: it takes the
    client from [getOpenAIClient] called without an override, so the
    endpoint named in the request body, else in the query, selects the
    initializer (the direct-provider one for the direct-provider
    endpoint, the cloud-vendor one for the cloud-vendor endpoint).  That
    initializer is called once, a single list call goes to its client
    with the given query, and the vendor's response is returned as it is. *)
Theorem listAssistants_uses_resolved_client (w : World) (req : Request)
    (version : string) (query : Query) (st st' : State) (page : Page) :
  listAssistants w req version query st = (Ok page, st') ->
  exists v azure c reads,
    let ep := coalesce (body_endpoint req) (query_endpoint req) in
    let args := mkInitArgs req (body_model st) v VUndefined VUndefined in
    ((azure = false /\ ep = Some (E_assistants w)
      /\ initializeClient w args = Ok (Some (mkInitResult (Some c))))
     \/ (azure = true /\ ep <> Some (E_assistants w)
         /\ ep = Some (E_azureAssistants w)
         /\ initAzureClient w args = Ok (Some (mkInitResult (Some c)))))
    /\ st' = mkState (body_model st)
               (trace st ++ reads ++ [EvInit azure args; EvList c query])
    /\ (reads = [] \/ reads = [EvCacheGet])
    /\ assistants_list w c query = Ok page.
Proof.
  intros Hrun. rewrite listAssistants_eq in Hrun. cbv zeta in Hrun.
  set (a := mkClientArgs req VUndefined VUndefined None) in *.
  destruct (getCurrentVersion_trace w req (endpoint_of a) st)
    as (reads & Hst & Hreads).
  rewrite Hst in Hrun.
  pose proof (listAssistants_resume_spec w a (endpoint_of a)
                (fst (getCurrentVersion w req (endpoint_of a) st)) query
                (mkState (body_model st) (trace st ++ reads))) as H.
  cbv zeta in H. rewrite Hrun in H. cbn [fst snd body_model trace] in H.
  destruct H as (v & azure & c & _ & Hsel & Hs & Hl).
  exists v, azure, c, reads. cbv zeta.
  repeat split; try assumption.
  rewrite Hs, <- app_assoc. reflexivity.
Qed.

Lemma listAssistants_uses_resolved_client_witness :
  let req := request_of "/api/assistants" VUndefined (Some "assistants")
               None None in
  let q := mkQuery (VNum 100) (VStr "desc") VUndefined VUndefined in
  exists v azure c reads,
    let ep := coalesce (body_endpoint req) (query_endpoint req) in
    let args := mkInitArgs req (body_model plain_state) v VUndefined VUndefined in
    ((azure = false /\ ep = Some (E_assistants provider_world)
      /\ initializeClient provider_world args
         = Ok (Some (mkInitResult (Some c))))
     \/ (azure = true /\ ep <> Some (E_assistants provider_world)
         /\ ep = Some (E_azureAssistants provider_world)
         /\ initAzureClient provider_world args
            = Ok (Some (mkInitResult (Some c)))))
    /\ mkState VUndefined
         [EvCacheGet;
          EvInit false (mkInitArgs req VUndefined "v2" VUndefined VUndefined);
          EvList 1%nat q]
       = mkState (body_model plain_state)
           (trace plain_state ++ reads ++ [EvInit azure args; EvList c q])
    /\ (reads = [] \/ reads = [EvCacheGet])
    /\ assistants_list provider_world c q = Ok (mkPage [assistant_1] None).
Proof.
  intros req q.
  apply (listAssistants_uses_resolved_client provider_world req "v2" q
           plain_state).
  reflexivity.
Defined.

(** ** Facts about the fan-out of [listAssistantsForAzure] *)

Section FanOutFacts.

Variable w : World.
Variable req : Request.
Variable version : string.
Variable q : Query.
Variable gm : gmap string AzureGroup.

(** One iteration: it pushes one promise and lists nothing yet. *)
Lemma fanout_step_spec (acc : FanOut) (name : string) (st : State) :
  exists delta,
    trace (snd (fanout_step w req version q gm acc name st)) = trace st ++ delta
    /\ list_calls delta = []
    /\ init_calls delta = []
    /\ match fst (fanout_step w req version q gm acc name st) with
       | Ok fo =>
           exists g p,
             gm !! name = Some g /\ models g <> []
             /\ fo_groups fo = fo_groups acc ++ [Some g]
             /\ fo_groupModelTuples fo = fo_groupModelTuples acc ++ [models g]
             /\ fo_promises fo = fo_promises acc ++ [p]
             /\ settles w q p
             /\ promises_made delta = 1%nat
       | Throw _ => True
       end.
Proof.
  unfold fanout_step, bind, ret, throw, set_body_model, emit.
  destruct (gm !! name) as [g|] eqn:Hg; cbn [fst snd].
  2:{ exists []. rewrite app_nil_r. repeat split. }
  destruct (models g) as [|[m mc] rest] eqn:Hm; cbn [fst snd].
  { exists []. rewrite app_nil_r. repeat split. }
  rewrite listAssistants_call_eq. cbv zeta.
  set (a := mkClientArgs req VUndefined VUndefined None).
  destruct (getCurrentVersion_trace w req (endpoint_of a)
              (mkState (VStr m) (trace st))) as (reads & Hs & Hr).
  rewrite Hs. cbn [fst snd body_model trace].
  exists (reads ++ [EvPromise]).
  rewrite list_calls_app, init_calls_app, promises_made_app, app_assoc.
  repeat split; try (destruct Hr as [-> | ->]; reflexivity).
  exists g. eexists. repeat split; try reflexivity.
  - rewrite Hm. discriminate.
  - now rewrite Hm.
  - apply settles_resume.
  - destruct Hr as [-> | ->]; reflexivity.
Qed.

(** The loop: one promise per group name, in order, and no list call. *)
Lemma fanout_loop_spec (names : list string) (acc : FanOut) (st : State) :
  Forall (settles w q) (fo_promises acc) ->
  exists delta,
    trace (snd (fanout_loop w req version q gm acc names st)) = trace st ++ delta
    /\ list_calls delta = []
    /\ init_calls delta = []
    /\ match fst (fanout_loop w req version q gm acc names st) with
       | Ok fo =>
           exists gs,
             Forall2 (fun n g => gm !! n = Some g /\ models g <> []) names gs
             /\ fo_groups fo = fo_groups acc ++ map Some gs
             /\ fo_groupModelTuples fo = fo_groupModelTuples acc ++ map models gs
             /\ length (fo_promises fo)
                = (length (fo_promises acc) + length names)%nat
             /\ Forall (settles w q) (fo_promises fo)
             /\ promises_made delta = length names
       | Throw _ => True
       end.
Proof.
  revert acc st. induction names as [|name names IH]; intros acc st Hacc.
  - exists []. cbn. rewrite !app_nil_r. repeat split.
    exists []. cbn. rewrite !app_nil_r. repeat split; auto with lia.
  - cbn [fanout_loop]. unfold bind.
    destruct (fanout_step_spec acc name st) as (d1 & Ht1 & Hl1 & Hi1 & Hok).
    destruct (fanout_step w req version q gm acc name st) as [[fo1|e] st1];
      cbn [fst snd] in *.
    2:{ exists d1. repeat split; assumption. }
    destruct Hok as (g & p & Hg & Hm & Hgs & Hts & Hps & Hp & Hn1).
    assert (Hacc1 : Forall (settles w q) (fo_promises fo1)).
    { rewrite Hps. apply Forall_app. split; [exact Hacc | now constructor]. }
    destruct (IH fo1 st1 Hacc1) as (d2 & Ht2 & Hl2 & Hi2 & Hok2).
    exists (d1 ++ d2).
    rewrite list_calls_app, init_calls_app, Hl1, Hl2, Hi1, Hi2, Ht2, Ht1, app_assoc.
    repeat split.
    destruct (fst (fanout_loop w req version q gm fo1 names st1)) as [fo|e];
      [|exact I].
    destruct Hok2 as (gs & HF & Hgs2 & Hts2 & Hlen & Hall & Hn2).
    exists (g :: gs). repeat split.
    + constructor; [split; assumption | exact HF].
    + rewrite Hgs2, Hgs, <- app_assoc. reflexivity.
    + rewrite Hts2, Hts, <- app_assoc. reflexivity.
    + rewrite Hlen, Hps, length_app. cbn. lia.
    + exact Hall.
    + rewrite promises_made_app, Hn1, Hn2. reflexivity.
Qed.

(** Awaiting them all: one list call per promise, the pages in order. *)
Lemma promise_all_spec (ps : list (Promise Page)) (st : State) :
  Forall (settles w q) ps ->
  exists delta,
    snd (promise_all ps st) = mkState (body_model st) (trace st ++ delta)
    /\ promises_made delta = 0%nat
    /\ Forall (fun cq => snd cq = q) (list_calls delta)
    /\ match fst (promise_all ps st) with
       | Ok pages =>
           Forall2 (fun cq page =>
                      snd cq = q /\ assistants_list w (fst cq) q = Ok page)
             (list_calls delta) pages
           /\ length pages = length ps
       | Throw _ => True
       end.
Proof.
  intros Hps. revert st. induction Hps as [|p ps Hp Hps IH]; intros st.
  - exists []. cbn. rewrite app_nil_r. destruct st. repeat split; constructor.
  - cbn [promise_all]. unfold bind, await, ret.
    destruct (Hp st) as (d1 & Hs1 & Hn1 & _ & Hq1 & Hok1).
    destruct (p st) as [[page|e] st1]; cbn [fst snd] in *.
    2:{ exists d1. repeat split; assumption. }
    destruct (Hok1 page eq_refl) as (c & Hl1 & Hpage).
    destruct (IH st1) as (d2 & Hs2 & Hn2 & Hq2 & Hok2).
    destruct (promise_all ps st1) as [[pages|e] st2]; cbn [fst snd] in *;
      exists (d1 ++ d2); subst st1 st2; cbn [body_model trace];
      rewrite list_calls_app, promises_made_app, Hn1, Hn2, app_assoc;
      (repeat split; [apply Forall_app; split; assumption | ..]); try exact I.
    + rewrite Hl1. cbn [app]. constructor; [split; [reflexivity | exact Hpage]|].
      apply Hok2.
    + cbn. f_equal. apply Hok2.
Qed.

End FanOutFacts.

(** ** Facts about the merge *)

Section MergeFacts.

Lemma map_outcome_total {A B} (f : A -> outcome B) (g : A -> B) (l : list A) :
  (forall x, f x = Ok (g x)) -> map_outcome f l = Ok (map g l).
Proof.
  intros H. induction l as [|x l IH]; [reflexivity|].
  cbn. rewrite H, IH. reflexivity.
Qed.

(** With the arrays the loop filled, the callback reads what it needs. *)
Lemma remap_at (gs : list AzureGroup) (i : nat) (g : AzureGroup)
    (a : Assistant) :
  gs !! i = Some g -> models g <> [] ->
  remap (map Some gs) (map models gs) i a
  = Ok (remap_with g (models g) (first_model g) a).
Proof.
  intros Hi Hm. unfold remap, first_model.
  rewrite !list_lookup_fmap, Hi. cbn.
  destruct (models g) as [|[m mc] rest]; [contradiction | reflexivity].
Qed.

Lemma remap_pages_aligned (gs : list AzureGroup) (pages : list Page) (i : nat) :
  Forall (fun g => models g <> []) gs ->
  (length pages <= length (drop i gs))%nat ->
  remap_pages (map Some gs) (map models gs) i pages
  = Ok (concat (zip_with remapped (drop i gs) pages)).
Proof.
  intros Hgs. revert i. induction pages as [|p pages IH]; intros i Hlen.
  - cbn. destruct (drop i gs); reflexivity.
  - destruct (drop i gs) as [|g rest] eqn:Hd; [cbn in Hlen; lia|].
    assert (Hi : gs !! i = Some g).
    { rewrite <- (Nat.add_0_r i), <- lookup_drop, Hd. reflexivity. }
    assert (Hrest : rest = drop (S i) gs).
    { rewrite (drop_S gs g i Hi) in Hd. now injection Hd. }
    cbn [remap_pages].
    rewrite (map_outcome_total _ (remap_with g (models g) (first_model g))).
    2:{ intros a. apply remap_at; [exact Hi|].
        rewrite Forall_forall in Hgs. apply Hgs.
        eapply list_elem_of_lookup_2. exact Hi. }
    rewrite IH by (rewrite <- Hrest; cbn in Hlen; lia).
    rewrite <- Hrest. reflexivity.
Qed.

(** Empty pages need no group at all. *)
Lemma remap_pages_empty (groups : list (option AzureGroup))
    (tuples : list ModelTuples) (pages : list Page) (i : nat) :
  Forall (fun p => page_data p = []) pages ->
  remap_pages groups tuples i pages = Ok [].
Proof.
  intros H. revert i. induction H as [|p pages Hp _ IH]; intros i;
    [reflexivity|].
  cbn [remap_pages]. rewrite Hp, IH. reflexivity.
Qed.

Lemma scan_tuples_first (d : value) (pre post : ModelTuples) (m : string)
    (mc : ModelConfig) :
  Forall (fun e => mc_deploymentName (snd e) <> d) pre ->
  mc_deploymentName mc = d ->
  scan_tuples d (pre ++ (m, mc) :: post) = Some m.
Proof.
  intros Hpre Hmc. induction Hpre as [|[m' mc'] pre Hne _ IH]; cbn.
  - unfold strict_eq. now rewrite bool_decide_eq_true_2.
  - unfold strict_eq. rewrite bool_decide_eq_false_2 by exact Hne. exact IH.
Qed.

Lemma scan_tuples_none (d : value) (tuples : ModelTuples) :
  Forall (fun e => mc_deploymentName (snd e) <> d) tuples ->
  scan_tuples d tuples = None.
Proof.
  intros H. induction H as [|[m mc] tuples Hne _ IH]; [reflexivity|].
  cbn. unfold strict_eq. rewrite bool_decide_eq_false_2 by exact Hne. exact IH.
Qed.

Lemma remap_with_other_fields (g : AzureGroup) (tuples : ModelTuples)
    (first : string) (a : Assistant) (k : string) :
  k <> "model" -> remap_with g tuples first a !! k = a !! k.
Proof.
  intros Hk. unfold remap_with.
  destruct (strict_eq _ _); [|destruct (scan_tuples _ _)];
    now apply lookup_insert_ne.
Qed.

End MergeFacts.

(** ** The multi-deployment lister as a whole *)

Section AzureFacts.

Variable w : World.

Lemma listAssistantsForAzure_spec (req : Request) (version : string)
    (cfg : AzureConfig) (q : Query) (st st' : State) (env : Envelope) :
  listAssistantsForAzure w req version (Some cfg) q st = (Ok env, st') ->
  exists gs pages spawn settle,
    Forall2 (fun n g => groupMap cfg !! n = Some g /\ models g <> [])
      (assistantGroups cfg) gs
    /\ trace st' = trace st ++ spawn ++ [EvAwaitAll] ++ settle
    /\ promises_made spawn = length (assistantGroups cfg)
    /\ list_calls spawn = []
    /\ init_calls spawn = []
    /\ promises_made settle = 0%nat
    /\ Forall2 (fun cq page =>
                  snd cq = q /\ assistants_list w (fst cq) q = Ok page)
         (list_calls settle) pages
    /\ length pages = length gs
    /\ env = envelope_of (concat (zip_with remapped gs pages)).
Proof.
  intros Hrun. unfold listAssistantsForAzure in Hrun.
  apply bind_ok in Hrun as (fo & st1 & Hloop & Hrun).
  apply bind_ok in Hrun as ([] & st2 & Hemit & Hrun).
  apply bind_ok in Hrun as (pages & st3 & Hall & Hrun).
  apply bind_ok in Hrun as (data & st4 & Hmerge & Hret).
  unfold ret in Hret. injection Hret as <- <-.
  unfold emit in Hemit. injection Hemit as <-.
  unfold lift in Hmerge. injection Hmerge as Hmerge <-.
  destruct (fanout_loop_spec w req version q (groupMap cfg)
              (assistantGroups cfg) (mkFanOut [] [] []) st
              ltac:(constructor)) as (spawn & Ht1 & Hl1 & Hi1 & Hok1).
  rewrite Hloop in Ht1, Hok1. cbn [fst snd] in Ht1, Hok1.
  destruct Hok1 as (gs & HF & Hgs & Hts & Hlen & Hps & Hn).
  cbn [fo_groups fo_groupModelTuples fo_promises app length Nat.add] in *.
  destruct (promise_all_spec w q (fo_promises fo)
              (mkState (body_model st1) (trace st1 ++ [EvAwaitAll])) Hps)
    as (settle & Hs3 & Hn3 & _ & Hok3).
  rewrite Hall in Hs3, Hok3. cbn [fst snd body_model trace] in Hs3, Hok3.
  destruct Hok3 as (Hpages & Hplen).
  assert (Hgl : length gs = length (assistantGroups cfg)).
  { symmetry. eapply Forall2_length. exact HF. }
  rewrite Hgs, Hts, remap_pages_aligned in Hmerge.
  - injection Hmerge as <-.
    exists gs, pages, spawn, settle. subst st3. cbn [trace].
    rewrite Ht1, <- !app_assoc.
    repeat split; try assumption. lia.
  - clear -HF. induction HF as [|n g ns gs [_ Hm] _ IH]; constructor; assumption.
  - rewrite drop_0. lia.
Qed.

(** Whatever the outcome, every list call carries the query given. *)
Lemma listAssistantsForAzure_queries (req : Request) (version : string)
    (azureConfig : option AzureConfig) (q : Query) (st : State) :
  exists delta,
    trace (snd (listAssistantsForAzure w req version azureConfig q st))
    = trace st ++ delta
    /\ Forall (fun cq => snd cq = q) (list_calls delta).
Proof.
  unfold listAssistantsForAzure. destruct azureConfig as [cfg|].
  2:{ exists []. cbn. rewrite app_nil_r. split; constructor. }
  unfold bind, emit, lift, ret.
  destruct (fanout_loop_spec w req version q (groupMap cfg)
              (assistantGroups cfg) (mkFanOut [] [] []) st
              ltac:(constructor)) as (spawn & Ht1 & Hl1 & _ & Hok1).
  destruct (fanout_loop w req version q (groupMap cfg) _ _ st)
    as [[fo|e] st1]; cbn [fst snd] in *.
  2:{ exists spawn. rewrite Hl1. split; [exact Ht1 | constructor]. }
  destruct Hok1 as (gs & _ & _ & _ & _ & Hps & _).
  destruct (promise_all_spec w q (fo_promises fo)
              (mkState (body_model st1) (trace st1 ++ [EvAwaitAll])) Hps)
    as (settle & Hs3 & _ & Hq3 & _).
  destruct (promise_all (fo_promises fo) _) as [[pages|e] st3];
    cbn [fst snd body_model trace] in *; subst st3.
  - exists (spawn ++ [EvAwaitAll] ++ settle).
    rewrite !list_calls_app, Hl1. cbn [app list_calls].
    split; [|exact Hq3].
    destruct (remap_pages _ _ _ _); cbn [fst snd trace];
      rewrite Ht1, <- !app_assoc; reflexivity.
  - exists (spawn ++ [EvAwaitAll] ++ settle).
    rewrite !list_calls_app, Hl1. cbn [app list_calls trace].
    split; [|exact Hq3]. rewrite Ht1, <- !app_assoc. reflexivity.
Qed.

End AzureFacts.

(** ** Progress of the fan-out *)

Section Progress.

Variable w : World.
Variable req : Request.
Variable version : string.
Variable q : Query.
Hypothesis Hserves : serves w req.

Lemma promise_resolves (st0 : State) :
  let a := mkClientArgs req VUndefined VUndefined None in
  resolves (listAssistants_resume w q
              (getOpenAIClient_resume w a (endpoint_of a)
                 (fst (getCurrentVersion w req (endpoint_of a) st0)))).
Proof.
  destruct Hserves as ((e & Hep & Hne & Hknown) & Hinit & Hazure & Hlist).
  cbv zeta. unfold endpoint_of. cbn [ca_req ca_overrideEndpoint coalesce].
  rewrite Hep.
  destruct (getCurrentVersion_with_endpoint w req (Some e) st0
              (truthy_str_nonempty e Hne)) as (v & st1 & ->).
  intros st. cbn [fst].
  unfold listAssistants_resume, getOpenAIClient_resume, await, bind, lift,
    throw, ret, emit, get_body_model.
  rewrite (truthy_str_nonempty e Hne). cbn [negb].
  destruct (bool_decide (Some e = Some (E_assistants w))) eqn:E1.
  - destruct (Hinit (mkInitArgs req (body_model st) v VUndefined VUndefined))
      as (c & Hc).
    cbn [ca_req ca_endpointOption ca_initAppClient]. rewrite Hc. cbn [openai].
    destruct (Hlist c q) as (page & ->). eauto.
  - apply bool_decide_eq_false_1 in E1.
    destruct Hknown as [-> | ->]; [contradiction|].
    rewrite bool_decide_eq_true_2 by reflexivity.
    destruct (Hazure (mkInitArgs req (body_model st) v VUndefined VUndefined))
      as (c & Hc).
    cbn [ca_req ca_endpointOption ca_initAppClient]. rewrite Hc. cbn [openai].
    destruct (Hlist c q) as (page & ->). eauto.
Qed.

Lemma fanout_loop_resolves (gm : gmap string AzureGroup) (names : list string)
    (acc : FanOut) (st : State) :
  Forall (fun n => exists g, gm !! n = Some g /\ models g <> []) names ->
  Forall resolves (fo_promises acc) ->
  exists fo st1,
    fanout_loop w req version q gm acc names st = (Ok fo, st1)
    /\ Forall resolves (fo_promises fo).
Proof.
  intros Hnames. revert acc st.
  induction Hnames as [|name names (g & Hg & Hm) _ IH]; intros acc st Hacc.
  - exists acc, st. split; [reflexivity | exact Hacc].
  - cbn [fanout_loop]. unfold bind at 1.
    unfold fanout_step, bind, ret, set_body_model, emit. rewrite Hg.
    destruct (models g) as [|[m mc] rest]; [contradiction|].
    rewrite listAssistants_call_eq. cbv zeta.
    apply IH. cbn [fo_promises]. apply Forall_app. split; [exact Hacc|].
    constructor; [apply promise_resolves | constructor].
Qed.

Lemma promise_all_resolves {A} (ps : list (Promise A)) (st : State) :
  Forall resolves ps -> exists rs st', promise_all ps st = (Ok rs, st').
Proof.
  intros Hps. revert st. induction Hps as [|p ps Hp _ IH]; intros st.
  - exists [], st. reflexivity.
  - cbn [promise_all]. unfold bind, await, ret.
    destruct (Hp st) as (r & st1 & ->).
    destruct (IH st1) as (rs & st2 & ->). eauto.
Qed.

Lemma listAssistantsForAzure_resolves (cfg : AzureConfig) (st : State) :
  well_formed cfg ->
  exists env st',
    listAssistantsForAzure w req version (Some cfg) q st = (Ok env, st').
Proof.
  intros Hcfg. unfold listAssistantsForAzure, bind, emit, lift, ret.
  destruct (fanout_loop_resolves (groupMap cfg) (assistantGroups cfg)
              (mkFanOut [] [] []) st Hcfg ltac:(constructor))
    as (fo & st1 & Hloop & Hres).
  destruct (fanout_loop_spec w req version q (groupMap cfg)
              (assistantGroups cfg) (mkFanOut [] [] []) st
              ltac:(constructor)) as (spawn & _ & _ & _ & Hok).
  rewrite Hloop in *. cbn [fst] in Hok.
  destruct Hok as (gs & HF & Hgs & Hts & Hlen & Hps & _).
  cbn [fo_groups fo_groupModelTuples fo_promises app length Nat.add] in *.
  destruct (promise_all_resolves (fo_promises fo)
              (mkState (body_model st1) (trace st1 ++ [EvAwaitAll])) Hres)
    as (pages & st2 & Hall).
  destruct (promise_all_spec w q (fo_promises fo)
              (mkState (body_model st1) (trace st1 ++ [EvAwaitAll])) Hps)
    as (settle & _ & _ & _ & Hok3).
  rewrite Hall in *. cbn [fst] in Hok3. destruct Hok3 as (_ & Hplen).
  rewrite Hgs, Hts, remap_pages_aligned.
  - eauto.
  - clear -HF. induction HF as [|n g ns gs [_ Hm] _ IH]; constructor; assumption.
  - rewrite drop_0, Hplen, Hlen. apply Nat.eq_le_incl.
    eapply Forall2_length. exact HF.
Qed.

End Progress.

(** ** The callback against the remap of the specification *)

Section RemapRefinement.

Lemma scan_tuples_find (raw : value) (tuples : ModelTuples) :
  scan_tuples raw tuples
  = match List.find
            (fun entry => bool_decide (mc_deploymentName (snd entry) = raw))
            tuples with
    | Some entry => Some (fst entry)
    | None => None
    end.
Proof.
  induction tuples as [|[m mc] tuples IH]; [reflexivity|].
  cbn. unfold strict_eq. destruct (bool_decide _); [reflexivity | exact IH].
Qed.

(** The callback of the source does what the specification says. *)
Lemma remap_with_refines (g : AzureGroup) (a : Assistant) :
  remap_with g (models g) (first_model g) a
  = <["model" := VStr (spec_model_name g (prop a "model"))]> a.
Proof.
  unfold remap_with, spec_model_name, strict_eq.
  rewrite scan_tuples_find.
  destruct (decide (prop a "model" = deploymentName g)) as [E|E].
  - rewrite bool_decide_eq_true_2 by congruence. reflexivity.
  - rewrite bool_decide_eq_false_2 by congruence.
    destruct (List.find _ (models g)); reflexivity.
Qed.

Lemma remapped_refines (gs : list AzureGroup) (pages : list Page) :
  concat (zip_with remapped gs pages) = concat (zip_with spec_remapped gs pages).
Proof.
  revert pages. induction gs as [|g gs IH]; intros [|p pages];
    try reflexivity.
  cbn [zip_with concat]. rewrite IH. f_equal.
  unfold remapped, spec_remapped. apply map_ext. intros a.
  apply remap_with_refines.
Qed.

End RemapRefinement.

(** ** The claims about the multi-deployment lister *)



(** C5.  Remapping a record of the group of index [i]: a raw [model]
    equal to the group's default deployment gives the group's first model
    name; otherwise the first entry of the table whose deployment equals
    it gives that entry's model name; otherwise the first model name
    again.  Every field other than [model] is kept. *)
Theorem remap_model (groups : list (option AzureGroup))
    (groupModelTuples : list ModelTuples) (i : nat) (g : AzureGroup)
    (first : string) (mc0 : ModelConfig) (rest : ModelTuples) (a : Assistant) :
  groups !! i = Some (Some g) ->
  groupModelTuples !! i = Some (models g) ->
  models g = (first, mc0) :: rest ->
  exists a',
    remap groups groupModelTuples i a = Ok a'
    /\ (forall k, k <> "model" -> a' !! k = a !! k)
    /\ (deploymentName g = prop a "model" -> a' !! "model" = Some (VStr first))
    /\ (deploymentName g <> prop a "model" ->
        forall pre m mc post,
          models g = pre ++ (m, mc) :: post ->
          Forall (fun e => mc_deploymentName (snd e) <> prop a "model") pre ->
          mc_deploymentName mc = prop a "model" ->
          a' !! "model" = Some (VStr m))
    /\ (deploymentName g <> prop a "model" ->
        Forall (fun e => mc_deploymentName (snd e) <> prop a "model") (models g) ->
        a' !! "model" = Some (VStr first)).
Proof.
  intros Hg Ht Hm. unfold remap. rewrite Ht, Hm, Hg.
  eexists. split; [reflexivity|]. rewrite <- Hm.
  split; [|split; [|split]].
  - intros k Hk. now apply remap_with_other_fields.
  - intros Hd. unfold remap_with, strict_eq.
    rewrite bool_decide_eq_true_2 by exact Hd. apply lookup_insert_eq.
  - intros Hd pre m mc post Hsplit Hpre Hmc. unfold remap_with, strict_eq.
    rewrite bool_decide_eq_false_2 by exact Hd.
    rewrite Hsplit, (scan_tuples_first _ pre post m mc Hpre Hmc).
    apply lookup_insert_eq.
  - intros Hd Hall. unfold remap_with, strict_eq.
    rewrite bool_decide_eq_false_2 by exact Hd.
    rewrite (scan_tuples_none _ _ Hall). apply lookup_insert_eq.
Qed.

Lemma remap_model_witness :
  exists a',
    remap [Some group_g1] [models group_g1] 0 assistant_1 = Ok a'
    /\ a' !! "id" = Some (VStr "1")
    /\ a' !! "model" = Some (VStr "gpt-b").
Proof.
  destruct (remap_model [Some group_g1] [models group_g1] 0 group_g1 "gpt-a"
              (mkModelConfig (VStr "d1"))
              [("gpt-b", mkModelConfig (VStr "d2"))] assistant_1
              eq_refl eq_refl eq_refl)
    as (a' & Hr & Hk & _ & Hscan & _).
  exists a'. split; [exact Hr|]. split.
  - rewrite Hk by discriminate. reflexivity.
  - apply (Hscan ltac:(discriminate)
             [("gpt-a", mkModelConfig (VStr "d1"))] "gpt-b"
             (mkModelConfig (VStr "d2")) []).
    + reflexivity.
    + repeat constructor. discriminate.
    + reflexivity.
Defined.



(** C10.  With no group at all, and whenever every page the groups
    resolve to has an empty [data], the lister returns, without raising,
    the envelope whose [first_id] and [last_id] are undefined, [object]
    ['list'], [has_more] false and [data] empty. *)
Theorem empty_merge_is_guarded (w : World) (req : Request) (version : string)
    (q : Query) (st : State) :
  (forall gm,
      listAssistantsForAzure w req version (Some (mkAzureConfig gm [])) q st
      = (Ok empty_envelope, mkState (body_model st) (trace st ++ [EvAwaitAll])))
  /\ (forall cfg fo st1 pages st2,
      fanout_loop w req version q (groupMap cfg) (mkFanOut [] [] [])
        (assistantGroups cfg) st = (Ok fo, st1) ->
      promise_all (fo_promises fo)
        (mkState (body_model st1) (trace st1 ++ [EvAwaitAll])) = (Ok pages, st2) ->
      Forall (fun p => page_data p = []) pages ->
      listAssistantsForAzure w req version (Some cfg) q st
      = (Ok empty_envelope, st2)).
Proof.
  split.
  - intros gm. reflexivity.
  - intros cfg fo st1 pages st2 Hloop Hall Hempty.
    unfold listAssistantsForAzure, bind, emit, lift, ret.
    rewrite Hloop, Hall, (remap_pages_empty _ _ _ _ Hempty). reflexivity.
Qed.

Lemma empty_merge_is_guarded_witness :
  let q := mkQuery (VNum 100) (VStr "desc") VUndefined VUndefined in
  fst (listAssistantsForAzure quiet_world (azure_request config_two) "v1"
         (Some config_two) q plain_state) = Ok empty_envelope
  /\ fst (listAssistantsForAzure quiet_world (azure_request config_two) "v1"
            (Some (mkAzureConfig ∅ [])) q plain_state) = Ok empty_envelope.
Proof.
  intros q.
  destruct (empty_merge_is_guarded quiet_world (azure_request config_two) "v1"
              q plain_state) as [Hzero Hempty].
  split.
  - destruct (fanout_loop quiet_world (azure_request config_two) "v1" q
                (groupMap config_two) (mkFanOut [] [] [])
                (assistantGroups config_two) plain_state)
      as [[fo|e] st1] eqn:Eloop; [|vm_compute in Eloop; discriminate Eloop].
    destruct (promise_all (fo_promises fo)
                (mkState (body_model st1) (trace st1 ++ [EvAwaitAll])))
      as [[pages|e] st2] eqn:Eall.
    + rewrite (Hempty config_two fo st1 pages st2 Eloop Eall); [reflexivity|].
      vm_compute in Eloop. injection Eloop as <- <-.
      vm_compute in Eall. injection Eall as <- _. repeat constructor.
    + vm_compute in Eloop. injection Eloop as <- <-.
      vm_compute in Eall. discriminate Eall.
  - rewrite Hzero. reflexivity.
Defined.

(** ** The claim about the query of the top-level fetch *)

Section FetchFacts.

Variable w : World.

(** Whatever the outcome of [listAssistants], every list call it makes
    carries its query, and on success it made exactly one. *)
Lemma listAssistants_queries (req : Request) (version : string) (q : Query)
    (st : State) :
  exists delta,
    trace (snd (listAssistants w req version q st)) = trace st ++ delta
    /\ Forall (fun cq => snd cq = q) (list_calls delta)
    /\ (forall page, fst (listAssistants w req version q st) = Ok page ->
        exists c, list_calls delta = [(c, q)]
                  /\ assistants_list w c q = Ok page).
Proof.
  rewrite listAssistants_eq. cbv zeta.
  set (a := mkClientArgs req VUndefined VUndefined None).
  destruct (getCurrentVersion_trace w req (endpoint_of a) st)
    as (reads & Hst & Hreads).
  rewrite Hst.
  destruct (settles_resume w a (endpoint_of a)
              (fst (getCurrentVersion w req (endpoint_of a) st)) q
              (mkState (body_model st) (trace st ++ reads)))
    as (delta & Hs & _ & _ & Hq & Hok).
  exists (reads ++ delta). rewrite Hs. cbn [trace].
  rewrite list_calls_app, app_assoc.
  assert (Hr : list_calls reads = [])
    by (destruct Hreads as [-> | ->]; reflexivity).
  rewrite Hr. cbn [app]. repeat split; assumption.
Qed.

End FetchFacts.

(** C9.  The query [fetchAssistants] builds has [limit] 100 and [order]
    ['desc'] when the request leaves them out and the request's own
    values otherwise, and [after] and [before] exactly as the request has
    them (absent when omitted).  Every list call made downstream, on the
    direct path and on the fan-out alike, carries that query; a direct
    fetch that resolves made exactly one. *)
Theorem fetchAssistants_query_defaults (w : World) (req : Request) (st : State) :
  (query_limit req = VUndefined -> limit (fetch_query req) = VNum 100)
  /\ (query_limit req <> VUndefined -> limit (fetch_query req) = query_limit req)
  /\ (query_order req = VUndefined -> order (fetch_query req) = VStr "desc")
  /\ (query_order req <> VUndefined -> order (fetch_query req) = query_order req)
  /\ after (fetch_query req) = query_after req
  /\ before (fetch_query req) = query_before req
  /\ exists delta,
      trace (snd (fetchAssistants w req st)) = trace st ++ delta
      /\ Forall (fun cq => snd cq = fetch_query req) (list_calls delta)
      /\ (query_endpoint req = Some (E_assistants w) ->
          forall body, fst (fetchAssistants w req st) = Ok body ->
          exists c, list_calls delta = [(c, fetch_query req)]).
Proof.
  split; [intros H; unfold fetch_query; rewrite H; reflexivity|].
  split; [intros H; unfold fetch_query; cbn;
          destruct (query_limit req); [contradiction | reflexivity..]|].
  split; [intros H; unfold fetch_query; rewrite H; reflexivity|].
  split; [intros H; unfold fetch_query; cbn;
          destruct (query_order req); [contradiction | reflexivity..]|].
  split; [reflexivity|]. split; [reflexivity|].
  unfold fetchAssistants, bind, ret.
  destruct (getCurrentVersion_trace w req (query_endpoint req) st)
    as (reads & Hst & Hreads).
  assert (Hr : list_calls reads = [])
    by (destruct Hreads as [-> | ->]; reflexivity).
  destruct (getCurrentVersion w req (query_endpoint req) st)
    as [[version|e] st1]; cbn [fst snd] in *; subst st1.
  2:{ exists reads. rewrite Hr. cbn [trace].
      repeat split; [constructor | intros _ body [=]]. }
  destruct (bool_decide (query_endpoint req = Some (E_assistants w))) eqn:E1.
  - destruct (listAssistants_queries w req version (fetch_query req)
                (mkState (body_model st) (trace st ++ reads)))
      as (delta & Ht & Hq & Hok).
    exists (reads ++ delta).
    destruct (listAssistants w req version (fetch_query req) _)
      as [[page|e] st2]; cbn [fst snd trace] in *;
      rewrite Ht, list_calls_app, Hr, app_assoc; cbn [app];
      (repeat split; [exact Hq|]); intros _ body Hb; [|discriminate Hb].
    destruct (Hok page eq_refl) as (c & Hc & _). exists c. exact Hc.
  - apply bool_decide_eq_false_1 in E1.
    destruct (bool_decide (query_endpoint req = Some (E_azureAssistants w))).
    + destruct (listAssistantsForAzure_queries w req version
                  (locals_azureConfig req) (fetch_query req)
                  (mkState (body_model st) (trace st ++ reads)))
        as (delta & Ht & Hq).
      exists (reads ++ delta).
      destruct (listAssistantsForAzure w req version _ _ _)
        as [[env|e] st2]; cbn [fst snd trace] in *;
        rewrite Ht, list_calls_app, Hr, app_assoc; cbn [app];
        (repeat split; [exact Hq|]); intros He; contradiction.
    + exists reads. rewrite Hr. cbn [fst snd trace].
      repeat split; [constructor | intros He; contradiction].
Qed.

Lemma fetchAssistants_query_defaults_witness :
  let req := request_of "/api/assistants/v2" VUndefined None
               (Some "assistants") None in
  fetch_query req = mkQuery (VNum 100) (VStr "desc") VUndefined VUndefined
  /\ exists c,
      list_calls (trace (snd (fetchAssistants provider_world req plain_state)))
      = [(c, mkQuery (VNum 100) (VStr "desc") VUndefined VUndefined)].
Proof.
  intros req.
  destruct (fetchAssistants_query_defaults provider_world req plain_state)
    as (Hl & _ & Ho & _ & Ha & Hb & delta & Ht & _ & Hone).
  split.
  - destruct (fetch_query req) as [l o a b] eqn:E. cbn in Hl, Ho, Ha, Hb.
    rewrite (Hl eq_refl), (Ho eq_refl), Ha, Hb. reflexivity.
  - destruct (Hone eq_refl None eq_refl) as (c & Hc).
    exists c. rewrite Ht. exact Hc.
Defined.

(** * Further properties of the helpers *)

(** ** The version resolver: when it fails and what it reads *)

Section ResolverOutcome.

Variable w : World.

Lemma scan_present (s pat : string) :
  contains s pat -> (lastIndexOf s pat =? -1) = false.
Proof.
  intros Hc. destruct (lastIndexOf_present s pat Hc) as (pre & tail & _ & ->).
  apply Z.eqb_neq. lia.
Qed.

Lemma scan_absent (s pat : string) :
  ~ contains s pat -> (lastIndexOf s pat =? -1) = true.
Proof. intros Hn. rewrite (lastIndexOf_absent s pat Hn). reflexivity. Qed.

(** The state after the resolver: the trace grown by its cache reads. *)
Lemma getCurrentVersion_reads (req : Request) (ep : option string) (st : State) :
  snd (getCurrentVersion w req ep st)
  = mkState (body_model st) (trace st ++ version_reads req ep).
Proof.
  assert (Hst : st = mkState (body_model st) (trace st ++ []))
    by (rewrite app_nil_r; destruct st; reflexivity).
  unfold version_reads, from_cache.
  destruct (getCurrentVersion_cases w req ep st)
    as [(Hc & x & H) | [(Hn & Hb & H) | [(Hn & Hb & He & H) | (Hn & Hb & He & x & H)]]];
    rewrite H; cbn [snd].
  - rewrite (scan_present _ _ Hc). exact Hst.
  - rewrite (scan_absent _ _ Hn), Hb. exact Hst.
  - rewrite (scan_absent _ _ Hn), Hb, He. reflexivity.
  - rewrite (scan_absent _ _ Hn), Hb, He. exact Hst.
Qed.

Lemma version_reads_calls (req : Request) (ep : option string) :
  list_calls (version_reads req ep) = []
  /\ init_calls (version_reads req ep) = []
  /\ promises_made (version_reads req ep) = 0%nat
  /\ cache_reads (version_reads req ep)
     = (if from_cache req ep then 1 else 0)%nat.
Proof. unfold version_reads. destruct (from_cache req ep); repeat split. Qed.

End ResolverOutcome.

(** X1.  Where [getCurrentVersion] reads no cache its outcome is settled
    by the request alone.  Without an endpoint name it fails exactly when
    neither the path nor the body supplies a version, with a [TypeError]
    and the state untouched.  When the path holds ['/v'] or the body
    version is truthy it resolves, whatever the endpoint, and leaves the
    state untouched.  Every token it resolves to starts with ['v']. *)
Theorem getCurrentVersion_failure (w : World) (req : Request)
    (ep : option string) (st : State) :
  (truthy_str ep = false ->
   ((exists e, fst (getCurrentVersion w req ep st) = Throw e)
    <-> (~ contains (baseUrl req) "/v" /\ truthy (body_version req) = false))
   /\ (forall e, fst (getCurrentVersion w req ep st) = Throw e ->
       exists what, e = TypeError what)
   /\ snd (getCurrentVersion w req ep st) = st)
  /\ (contains (baseUrl req) "/v" \/ truthy (body_version req) = true ->
      exists v, getCurrentVersion w req ep st = (Ok v, st))
  /\ (forall v, fst (getCurrentVersion w req ep st) = Ok v ->
      startsWith v "v" = true).
Proof.
  destruct (getCurrentVersion_cases w req ep st)
    as [(Hc & x & H) | [(Hn & Hb & H) | [(Hn & Hb & He & H) | (Hn & Hb & He & x & H)]]];
    rewrite H; cbn [fst snd].
  - split; [|split].
    + intros _. split; [split|split].
      * intros (e & [=]).
      * intros (Hn & _). contradiction.
      * intros e [=].
      * reflexivity.
    + intros _. eauto.
    + intros v [= <-]. apply startsWith_v.
  - split; [|split].
    + intros _. split; [split|split].
      * intros (e & [=]).
      * intros (_ & Hb'). congruence.
      * intros e [=].
      * reflexivity.
    + intros _. eauto.
    + intros v [= <-]. apply startsWith_v.
  - split; [|split].
    + intros He'. congruence.
    + intros [Hc | Hb']; [contradiction | congruence].
    + intros v [= <-]. apply startsWith_v.
  - split; [|split].
    + intros _. split; [split|split].
      * intros _. auto.
      * intros _. eauto.
      * intros e [= <-]. eauto.
      * reflexivity.
    + intros [Hc | Hb']; [contradiction | congruence].
    + intros v [=].
Qed.

Lemma getCurrentVersion_failure_witness :
  (exists e,
      fst (getCurrentVersion provider_world
             (request_of "/api/assistants" VUndefined None None None)
             None plain_state) = Throw e)
  /\ exists v,
      getCurrentVersion provider_world
        (request_of "/api/assistants" (VNum 2) None None None)
        (Some "assistants") plain_state = (Ok v, plain_state).
Proof.
  split.
  - destruct (getCurrentVersion_failure provider_world
                (request_of "/api/assistants" VUndefined None None None)
                None plain_state) as [Hnone _].
    destruct (Hnone eq_refl) as [[_ Hfail] _]. apply Hfail.
    split; [apply not_contains_by_scan|]; reflexivity.
  - destruct (getCurrentVersion_failure provider_world
                (request_of "/api/assistants" (VNum 2) None None None)
                (Some "assistants") plain_state) as [_ [Hok _]].
    apply Hok. right. reflexivity.
Defined.

(** X2.  [getCurrentVersion] never writes [req.body.model], and it reads
    the configuration cache exactly once when the path holds no ['/v'],
    the body version is falsy and the endpoint is truthy, and not at all
    otherwise; it makes no other call. *)
Theorem getCurrentVersion_cache_read (w : World) (req : Request)
    (ep : option string) (st : State) :
  exists reads,
    snd (getCurrentVersion w req ep st)
    = mkState (body_model st) (trace st ++ reads)
    /\ (~ contains (baseUrl req) "/v" /\ truthy (body_version req) = false
        /\ truthy_str ep = true -> reads = [EvCacheGet])
    /\ (contains (baseUrl req) "/v" \/ truthy (body_version req) = true
        \/ truthy_str ep = false -> reads = []).
Proof.
  exists (version_reads req ep). split; [apply getCurrentVersion_reads|].
  unfold version_reads, from_cache. split.
  - intros (Hn & Hb & He). rewrite (scan_absent _ _ Hn), Hb, He. reflexivity.
  - intros [Hc | [Hb | He]].
    + rewrite (scan_present _ _ Hc). reflexivity.
    + rewrite Hb, andb_false_r. reflexivity.
    + rewrite He, andb_false_r. reflexivity.
Qed.

Lemma getCurrentVersion_cache_read_witness :
  snd (getCurrentVersion provider_world
         (request_of "/api/assistants" VUndefined None None None)
         (Some "assistants") plain_state)
  = mkState VUndefined [EvCacheGet]
  /\ snd (getCurrentVersion provider_world
            (request_of "/api/assistants/v2" VUndefined None None None)
            (Some "assistants") plain_state)
     = plain_state.
Proof.
  split.
  - destruct (getCurrentVersion_cache_read provider_world
                (request_of "/api/assistants" VUndefined None None None)
                (Some "assistants") plain_state) as (reads & Hs & Hone & _).
    rewrite Hs, Hone; [reflexivity|].
    split; [apply not_contains_by_scan; reflexivity | split; reflexivity].
  - destruct (getCurrentVersion_cache_read provider_world
                (request_of "/api/assistants/v2" VUndefined None None None)
                (Some "assistants") plain_state) as (reads & Hs & _ & Hnone).
    rewrite Hs, Hnone; [reflexivity|].
    left. exists "/api/assistants", "2". reflexivity.
Defined.

(** ** Client resolution and the direct lister: dispatch and failures *)

Section Dispatch.

Variable w : World.

(** With an endpoint name the resolver resolves, in the state it leaves. *)
Lemma getCurrentVersion_named (req : Request) (e : string) (st : State) :
  e <> "" ->
  exists v,
    getCurrentVersion w req (Some e) st
    = (Ok v, mkState (body_model st) (trace st ++ version_reads req (Some e))).
Proof.
  intros He.
  destruct (getCurrentVersion_with_endpoint w req (Some e) st
              (truthy_str_nonempty e He)) as (v & st1 & Hv).
  exists v. pose proof (getCurrentVersion_reads w req (Some e) st) as Hs.
  rewrite Hv in Hs. cbn [snd] in Hs. rewrite Hv, Hs. reflexivity.
Qed.

Lemma listAssistants_named (req : Request) (version : string) (q : Query)
    (st : State) (e : string) :
  lister_endpoint req = Some e -> e <> "" ->
  exists v,
    fst (getCurrentVersion w req (Some e) st) = Ok v
    /\ listAssistants w req version q st
       = listAssistants_resume w q
           (getOpenAIClient_resume w
              (mkClientArgs req VUndefined VUndefined None) (Some e) (Ok v))
           (mkState (body_model st) (trace st ++ version_reads req (Some e))).
Proof.
  intros Hep He. destruct (getCurrentVersion_named req e st He) as (v & Hv).
  exists v. rewrite listAssistants_eq. cbv zeta.
  unfold endpoint_of. cbn [ca_req ca_overrideEndpoint coalesce].
  unfold lister_endpoint in Hep. rewrite Hep, Hv. split; reflexivity.
Qed.

End Dispatch.

(** X3.  [getOpenAIClient] takes its endpoint from the override, else the
    body, else the query.  For a non-empty endpoint that is the
    direct-provider one it calls the direct initializer exactly once, with
    the request, the version resolved for that endpoint and the options
    passed through, and hands back whatever the initializer gives, a
    rejection included; for the cloud-vendor one it does the same with the
    cloud-vendor initializer.  It makes no list call. *)
Theorem getOpenAIClient_dispatch (w : World) (a : ClientArgs) (st : State)
    (e : string) :
  ca_overrideEndpoint a = Some e
  \/ (ca_overrideEndpoint a = None /\ body_endpoint (ca_req a) = Some e)
  \/ (ca_overrideEndpoint a = None /\ body_endpoint (ca_req a) = None
      /\ query_endpoint (ca_req a) = Some e) ->
  e <> "" ->
  exists v,
    fst (getCurrentVersion w (ca_req a) (Some e) st) = Ok v
    /\ let reads := version_reads (ca_req a) (Some e) in
       let args := mkInitArgs (ca_req a) (body_model st) v
                     (ca_endpointOption a) (ca_initAppClient a) in
       (e = E_assistants w ->
        getOpenAIClient w a st
        = (initializeClient w args,
           mkState (body_model st) (trace st ++ reads ++ [EvInit false args])))
       /\ (e <> E_assistants w -> e = E_azureAssistants w ->
           getOpenAIClient w a st
           = (initAzureClient w args,
              mkState (body_model st) (trace st ++ reads ++ [EvInit true args]))).
Proof.
  intros Hsrc He.
  assert (Hep : endpoint_of a = Some e).
  { unfold endpoint_of.
    destruct Hsrc as [-> | [(-> & ->) | (-> & -> & ->)]]; reflexivity. }
  destruct (getCurrentVersion_named w (ca_req a) e st He) as (v & Hv).
  exists v. rewrite Hv. split; [reflexivity|]. cbv zeta.
  rewrite getOpenAIClient_eq, Hep, Hv. cbn [fst snd].
  unfold getOpenAIClient_resume, bind, lift, get_body_model, emit.
  rewrite (truthy_str_nonempty e He). cbn [negb]. split.
  - intros ->. rewrite bool_decide_eq_true_2 by reflexivity.
    cbn [body_model trace]. rewrite <- app_assoc. reflexivity.
  - intros Hne ->. rewrite bool_decide_eq_false_2 by congruence.
    rewrite bool_decide_eq_true_2 by reflexivity.
    cbn [body_model trace]. rewrite <- app_assoc. reflexivity.
Qed.

Lemma getOpenAIClient_dispatch_witness :
  let req := request_of "/api/assistants/v2" VUndefined
               (Some "azureAssistants") (Some "azureAssistants") None in
  let a := mkClientArgs req (VStr "opts") (VBool true) (Some "assistants") in
  getOpenAIClient provider_world a plain_state
  = (Ok (Some (mkInitResult (Some 1%nat))),
     mkState VUndefined
       [EvInit false (mkInitArgs req VUndefined "v2" (VStr "opts") (VBool true))]).
Proof.
  intros req a.
  destruct (getOpenAIClient_dispatch provider_world a plain_state "assistants")
    as (v & Hv & Hdirect & _).
  - left. reflexivity.
  - discriminate.
  - rewrite (Hdirect eq_refl). vm_compute in Hv. injection Hv as <-. reflexivity.
Defined.

(** X4.  [listAssistants] on a request whose endpoint (body, else query)
    is a non-empty name other than the two known ones does not resolve to
    [undefined]: destructuring the missing client raises a [TypeError].
    No initializer is called and nothing is listed. *)
Theorem listAssistants_unknown_endpoint (w : World) (req : Request)
    (version : string) (q : Query) (st : State) (e : string) :
  lister_endpoint req = Some e ->
  e <> "" -> e <> E_assistants w -> e <> E_azureAssistants w ->
  listAssistants w req version q st
  = (Throw (TypeError "Cannot destructure property 'openai' of undefined"),
     mkState (body_model st) (trace st ++ version_reads req (Some e))).
Proof.
  intros Hep He H1 H2.
  destruct (listAssistants_named w req version q st e Hep He) as (v & _ & ->).
  unfold listAssistants_resume, getOpenAIClient_resume, await, bind, lift,
    ret, throw.
  rewrite (truthy_str_nonempty e He). cbn [negb].
  rewrite !bool_decide_eq_false_2 by congruence. reflexivity.
Qed.

Lemma listAssistants_unknown_endpoint_witness :
  listAssistants provider_world
    (request_of "/api/assistants/v2" VUndefined None (Some "agents") None)
    "v2" (mkQuery (VNum 100) (VStr "desc") VUndefined VUndefined) plain_state
  = (Throw (TypeError "Cannot destructure property 'openai' of undefined"),
     plain_state).
Proof.
  rewrite (listAssistants_unknown_endpoint provider_world _ _ _ _ "agents");
    try discriminate; reflexivity.
Defined.

(** X5.  On the direct-provider endpoint, a failure reaches the caller of
    [listAssistants] as it is: a rejection of the initializer is the
    rejection of [listAssistants] and no list call is made; a rejection of
    the vendor's list call is its rejection too; an initializer that
    resolves to nothing, or to an object without [openai], gives a
    [TypeError] before any list call. *)
Theorem listAssistants_failures (w : World) (req : Request) (version : string)
    (q : Query) (st : State) :
  lister_endpoint req = Some (E_assistants w) -> E_assistants w <> "" ->
  exists v,
    fst (getCurrentVersion w req (Some (E_assistants w)) st) = Ok v
    /\ let reads := version_reads req (Some (E_assistants w)) in
       let args := mkInitArgs req (body_model st) v VUndefined VUndefined in
       (forall err, initializeClient w args = Throw err ->
          listAssistants w req version q st
          = (Throw err,
             mkState (body_model st) (trace st ++ reads ++ [EvInit false args])))
       /\ (forall c err,
            initializeClient w args = Ok (Some (mkInitResult (Some c))) ->
            assistants_list w c q = Throw err ->
            listAssistants w req version q st
            = (Throw err,
               mkState (body_model st)
                 (trace st ++ reads ++ [EvInit false args; EvList c q])))
       /\ (initializeClient w args = Ok None
           \/ initializeClient w args = Ok (Some (mkInitResult None)) ->
           exists what,
             listAssistants w req version q st
             = (Throw (TypeError what),
                mkState (body_model st)
                  (trace st ++ reads ++ [EvInit false args]))).
Proof.
  intros Hep He.
  destruct (listAssistants_named w req version q st _ Hep He) as (v & Hv & ->).
  exists v. split; [exact Hv|]. cbv zeta.
  unfold listAssistants_resume, getOpenAIClient_resume, await, bind, lift,
    ret, throw, get_body_model, emit.
  rewrite (truthy_str_nonempty _ He). cbn [negb].
  rewrite bool_decide_eq_true_2 by reflexivity.
  cbn [body_model trace ca_req ca_endpointOption ca_initAppClient].
  split; [|split].
  - intros err ->. rewrite <- app_assoc. reflexivity.
  - intros c err -> Hl. cbn [openai body_model trace]. rewrite Hl.
    rewrite <- !app_assoc. reflexivity.
  - intros [-> | ->]; cbn [openai]; rewrite <- app_assoc; eauto.
Qed.

Lemma listAssistants_failures_witness :
  let req := request_of "/api/assistants/v2" VUndefined None
               (Some "assistants") None in
  let q := mkQuery (VNum 100) (VStr "desc") VUndefined VUndefined in
  let args := mkInitArgs req VUndefined "v2" VUndefined VUndefined in
  listAssistants refusing_world req "v2" q plain_state
  = (Throw (Rejected 401), mkState VUndefined [EvInit false args])
  /\ listAssistants outage_world req "v2" q plain_state
     = (Throw (Rejected 503),
        mkState VUndefined [EvInit false args; EvList 1%nat q]).
Proof.
  intros req q args. split.
  - destruct (listAssistants_failures refusing_world req "v2" q plain_state
                eq_refl ltac:(discriminate)) as (v & Hv & Hinit & _).
    vm_compute in Hv. injection Hv as <-.
    rewrite (Hinit (Rejected 401) eq_refl). reflexivity.
  - destruct (listAssistants_failures outage_world req "v2" q plain_state
                eq_refl ltac:(discriminate)) as (v & Hv & _ & Hlist & _).
    vm_compute in Hv. injection Hv as <-.
    rewrite (Hlist 1%nat (Rejected 503) eq_refl eq_refl). reflexivity.
Defined.

(** ** The top-level fetch: what it returns *)

(** X6.  [fetchAssistants] with no endpoint in the query (absent or
    empty) calls no collaborator at all: it returns [undefined] when the
    path or the body supplies a version, and otherwise fails with the
    [TypeError] of the version resolver. *)
Theorem fetchAssistants_without_endpoint (w : World) (req : Request)
    (st : State) :
  truthy_str (query_endpoint req) = false ->
  query_endpoint req <> Some (E_assistants w) ->
  query_endpoint req <> Some (E_azureAssistants w) ->
  (contains (baseUrl req) "/v" \/ truthy (body_version req) = true ->
   fetchAssistants w req st = (Ok None, st))
  /\ (~ contains (baseUrl req) "/v" /\ truthy (body_version req) = false ->
      exists what, fetchAssistants w req st = (Throw (TypeError what), st)).
Proof.
  intros He H1 H2. unfold fetchAssistants, bind, ret.
  destruct (getCurrentVersion_cases w req (query_endpoint req) st)
    as [(Hc & x & H) | [(Hn & Hb & H) | [(_ & _ & He' & _) | (Hn & Hb & _ & x & H)]]];
    try congruence; rewrite H;
    rewrite ?bool_decide_eq_false_2 by assumption.
  - split; [reflexivity|]. intros (Hn & _). contradiction.
  - split; [reflexivity|]. intros (_ & Hb'). congruence.
  - split; [|eauto]. intros [Hc | Hb']; [contradiction | congruence].
Qed.

Lemma fetchAssistants_without_endpoint_witness :
  fetchAssistants provider_world
    (request_of "/api/assistants/v2" VUndefined None None None) plain_state
  = (Ok None, plain_state)
  /\ exists what,
      fetchAssistants provider_world
        (request_of "/api/assistants" VUndefined None (Some "") None)
        plain_state
      = (Throw (TypeError what), plain_state).
Proof.
  split.
  - destruct (fetchAssistants_without_endpoint provider_world
                (request_of "/api/assistants/v2" VUndefined None None None)
                plain_state) as [Hok _]; try discriminate; [reflexivity|].
    apply Hok. left. exists "/api/assistants", "2". reflexivity.
  - destruct (fetchAssistants_without_endpoint provider_world
                (request_of "/api/assistants" VUndefined None (Some "") None)
                plain_state) as [_ Hfail]; try discriminate; [reflexivity|].
    apply Hfail. split; [apply not_contains_by_scan|]; reflexivity.
Defined.

(** X7.  What a fetch that resolves returns on a known endpoint.  On the
    direct-provider endpoint it is the [body] property of the page the
    vendor's list call gave for the built query, so [undefined] when that
    page carries none.  On the cloud-vendor endpoint it is never
    [undefined]: there is a configuration under [app.locals] and the
    result is the merged envelope of the multi-deployment lister. *)
Theorem fetchAssistants_result (w : World) (req : Request) (st st' : State)
    (body : option Envelope) :
  fetchAssistants w req st = (Ok body, st') ->
  (query_endpoint req = Some (E_assistants w) ->
   exists c page,
     assistants_list w c (fetch_query req) = Ok page
     /\ body = page_body page)
  /\ (query_endpoint req = Some (E_azureAssistants w) ->
      E_azureAssistants w <> E_assistants w ->
      exists cfg env v st1,
        locals_azureConfig req = Some cfg
        /\ listAssistantsForAzure w req v (Some cfg) (fetch_query req) st1
           = (Ok env, st')
        /\ body = Some env
        /\ object env = "list" /\ has_more env = false).
Proof.
  intros Hrun. unfold fetchAssistants in Hrun.
  apply bind_ok in Hrun as (v & st1 & Hv & Hrun). split.
  - intros Hq. rewrite bool_decide_eq_true_2 in Hrun by exact Hq.
    apply bind_ok in Hrun as (page & st2 & Hlist & Hret).
    unfold ret in Hret. injection Hret as <- <-.
    destruct (listAssistants_queries w req v (fetch_query req) st1)
      as (delta & _ & _ & Hok).
    rewrite Hlist in Hok. destruct (Hok page eq_refl) as (c & _ & Hc).
    exists c, page. split; [exact Hc | reflexivity].
  - intros Hq Hne.
    rewrite bool_decide_eq_false_2 in Hrun by congruence.
    rewrite bool_decide_eq_true_2 in Hrun by exact Hq.
    apply bind_ok in Hrun as (env & st2 & Hlist & Hret).
    unfold ret in Hret. injection Hret as <- <-.
    destruct (locals_azureConfig req) as [cfg|] eqn:Hcfg;
      [|discriminate Hlist].
    exists cfg, env, v, st1. split; [reflexivity|]. split; [exact Hlist|].
    split; [reflexivity|].
    destruct (listAssistantsForAzure_spec w req v cfg _ _ _ _ Hlist)
      as (gs & pages & spawn & settle & _ & _ & _ & _ & _ & _ & _ & _ & ->).
    split; reflexivity.
Qed.

Lemma fetchAssistants_result_witness :
  fetchAssistants provider_world
    (request_of "/api/assistants/v2" VUndefined None (Some "assistants") None)
    plain_state
  = (Ok None,
     mkState VUndefined
       [EvInit false
          (mkInitArgs
             (request_of "/api/assistants/v2" VUndefined None
                (Some "assistants") None)
             VUndefined "v2" VUndefined VUndefined);
        EvList 1%nat (mkQuery (VNum 100) (VStr "desc") VUndefined VUndefined)])
  /\ fst (fetchAssistants provider_world (azure_request config_g1) plain_state)
     = Ok (Some scenario_envelope).
Proof.
  split.
  - destruct (fetchAssistants provider_world
                (request_of "/api/assistants/v2" VUndefined None
                   (Some "assistants") None) plain_state)
      as [[body|e] st'] eqn:E; [|vm_compute in E; discriminate E].
    destruct (fetchAssistants_result provider_world _ _ _ _ E) as [Hdirect _].
    destruct (Hdirect eq_refl) as (c & page & Hpage & ->).
    injection Hpage as <-.
    vm_compute in E. injection E as <-. reflexivity.
  - destruct (fetchAssistants provider_world (azure_request config_g1)
                plain_state) as [[body|e] st'] eqn:E;
      [|vm_compute in E; discriminate E].
    destruct (fetchAssistants_result provider_world _ _ _ _ E) as [_ Hazure].
    destruct (Hazure eq_refl ltac:(discriminate))
      as (cfg & env & v & st1 & _ & _ & -> & _).
    vm_compute in E. injection E as <- _. reflexivity.
Defined.

(** ** The fan-out loop, step by step *)

Section LoopFacts.

Variable w : World.
Variable req : Request.
Variable version : string.
Variable q : Query.
Variable gm : gmap string AzureGroup.

Lemma pins_model_resume (a : ClientArgs) (ep : option string)
    (resolved : outcome string) :
  pins_model (listAssistants_resume w q (getOpenAIClient_resume w a ep resolved)).
Proof.
  intros st page st' Hrun.
  pose proof (listAssistants_resume_spec w a ep resolved q st) as H.
  cbv zeta in H. rewrite Hrun in H. cbn [fst snd] in H.
  destruct H as (v & azure & c & _ & _ & -> & _).
  eexists azure, _, c, q. split; reflexivity.
Qed.

(** A configured group: the model is written, the version resolved, the
    promise pushed. *)
Lemma fanout_step_ok (acc : FanOut) (name : string) (st : State)
    (g : AzureGroup) :
  gm !! name = Some g -> models g <> [] ->
  exists p,
    fanout_step w req version q gm acc name st
    = (Ok (mkFanOut (fo_groups acc ++ [Some g])
             (fo_groupModelTuples acc ++ [models g])
             (fo_promises acc ++ [p])),
       mkState (VStr (first_model g))
         (trace st ++ version_reads req (lister_endpoint req) ++ [EvPromise]))
    /\ settles w q p /\ pins_model p.
Proof.
  intros Hg Hm. unfold fanout_step, bind, ret, set_body_model, emit, first_model.
  rewrite Hg. destruct (models g) as [|[m mc] rest]; [contradiction|].
  rewrite listAssistants_call_eq. cbv zeta.
  rewrite getCurrentVersion_reads. cbn [body_model trace].
  unfold endpoint_of. cbn [ca_req ca_overrideEndpoint coalesce].
  fold (lister_endpoint req). rewrite <- app_assoc.
  eexists. split; [reflexivity|].
  split; [apply settles_resume | apply pins_model_resume].
Qed.

(** A group the loop cannot go past: a [TypeError], nothing done. *)
Lemma fanout_step_bad (acc : FanOut) (name : string) (st : State) :
  ill_configured gm name ->
  exists what,
    fanout_step w req version q gm acc name st = (Throw (TypeError what), st).
Proof.
  intros [Hg | (g & Hg & Hm)]; unfold fanout_step, bind, ret, throw;
    rewrite Hg; [|rewrite Hm]; eauto.
Qed.

Lemma final_model_snoc (names : list string) (name : string) (g : AzureGroup)
    (bm : value) :
  gm !! name = Some g ->
  final_model gm (names ++ [name]) bm = VStr (first_model g).
Proof. intros Hg. unfold final_model. rewrite last_snoc, Hg. reflexivity. Qed.

Lemma final_model_cons (name : string) (names : list string) (g : AzureGroup)
    (bm : value) :
  gm !! name = Some g -> Forall (configured gm) names ->
  final_model gm names (VStr (first_model g)) = final_model gm (name :: names) bm.
Proof.
  intros Hg Hall. unfold final_model.
  destruct names as [|n names]; [cbn; now rewrite Hg|].
  rewrite last_cons_cons.
  destruct (last (n :: names)) as [n'|] eqn:Hl.
  - assert (Hin : n' ∈ n :: names).
    { apply last_Some in Hl as (l' & ->). apply elem_of_app. right.
      apply list_elem_of_singleton. reflexivity. }
    rewrite Forall_forall in Hall. destruct (Hall n' Hin) as (g' & -> & _).
    reflexivity.
  - apply last_None in Hl. discriminate Hl.
Qed.

Lemma spawn_trace_S (n : nat) :
  spawn_trace req (S n)
  = version_reads req (lister_endpoint req) ++ [EvPromise] ++ spawn_trace req n.
Proof. unfold spawn_trace. cbn. rewrite <- app_assoc. reflexivity. Qed.

(** Through configured groups the loop goes to its end. *)
Lemma fanout_loop_complete (names : list string) (acc : FanOut) (st : State) :
  Forall (configured gm) names ->
  Forall (settles w q) (fo_promises acc) ->
  Forall pins_model (fo_promises acc) ->
  exists fo,
    fanout_loop w req version q gm acc names st
    = (Ok fo,
       mkState (final_model gm names (body_model st))
         (trace st ++ spawn_trace req (length names)))
    /\ Forall (settles w q) (fo_promises fo)
    /\ Forall pins_model (fo_promises fo)
    /\ length (fo_promises fo) = (length (fo_promises acc) + length names)%nat.
Proof.
  intros Hnames. revert acc st.
  induction Hnames as [|name names (g & Hg & Hm) Hrest IH];
    intros acc st Hs Hp.
  - exists acc. cbn. rewrite app_nil_r. destruct st.
    repeat split; auto with lia.
  - cbn [fanout_loop]. unfold bind at 1.
    destruct (fanout_step_ok acc name st g Hg Hm) as (p & -> & Hsp & Hpp).
    destruct (IH (mkFanOut (fo_groups acc ++ [Some g])
                    (fo_groupModelTuples acc ++ [models g])
                    (fo_promises acc ++ [p]))
                (mkState (VStr (first_model g))
                   (trace st ++ version_reads req (lister_endpoint req)
                    ++ [EvPromise])))
      as (fo & -> & Hs' & Hp' & Hlen).
    + cbn [fo_promises]. apply Forall_app. split; [exact Hs | now constructor].
    + cbn [fo_promises]. apply Forall_app. split; [exact Hp | now constructor].
    + exists fo. cbn [body_model trace length].
      rewrite (final_model_cons name names g (body_model st) Hg Hrest).
      rewrite spawn_trace_S, <- !app_assoc.
      repeat split; try assumption.
      rewrite Hlen. cbn [fo_promises]. rewrite length_app. cbn. lia.
Qed.

(** At the first group it cannot go past, it stops with what was done. *)
Lemma fanout_loop_stops (good : list string) (bad : string)
    (rest : list string) (acc : FanOut) (st : State) :
  Forall (configured gm) good -> ill_configured gm bad ->
  exists what,
    fanout_loop w req version q gm acc (good ++ bad :: rest) st
    = (Throw (TypeError what),
       mkState (final_model gm good (body_model st))
         (trace st ++ spawn_trace req (length good))).
Proof.
  intros Hgood Hbad. revert acc st.
  induction Hgood as [|name names (g & Hg & Hm) Hrest IH]; intros acc st.
  - cbn [app fanout_loop]. unfold bind.
    destruct (fanout_step_bad acc bad st Hbad) as (what & ->).
    exists what. cbn. rewrite app_nil_r. destruct st. reflexivity.
  - cbn [app fanout_loop]. unfold bind at 1.
    destruct (fanout_step_ok acc name st g Hg Hm) as (p & -> & _).
    destruct (IH (mkFanOut (fo_groups acc ++ [Some g])
                    (fo_groupModelTuples acc ++ [models g])
                    (fo_promises acc ++ [p]))
                (mkState (VStr (first_model g))
                   (trace st ++ version_reads req (lister_endpoint req)
                    ++ [EvPromise]))) as (what & ->).
    exists what. cbn [body_model trace length].
    rewrite (final_model_cons name names g (body_model st) Hg Hrest).
    rewrite spawn_trace_S, <- !app_assoc. reflexivity.
Qed.

Lemma spawn_trace_calls (n : nat) :
  list_calls (spawn_trace req n) = []
  /\ init_calls (spawn_trace req n) = []
  /\ promises_made (spawn_trace req n) = n
  /\ cache_reads (spawn_trace req n)
     = (n * (if from_cache req (lister_endpoint req) then 1 else 0))%nat.
Proof.
  destruct (version_reads_calls req (lister_endpoint req))
    as (Hl & Hi & Hp & Hc).
  induction n as [|n (IHl & IHi & IHp & IHc)]; [repeat split|].
  rewrite spawn_trace_S.
  rewrite !list_calls_app, !init_calls_app, !promises_made_app,
    !cache_reads_app, Hl, Hi, Hp, Hc, IHl, IHi, IHp, IHc.
  repeat split; cbn; lia.
Qed.

End LoopFacts.

(** ** The multi-deployment lister: misconfiguration and [req.body.model] *)

Section AzureEdges.

Variable w : World.

Lemma spawn_trace_events (req : Request) (n : nat) :
  Forall (fun ev => ev = EvCacheGet \/ ev = EvPromise) (spawn_trace req n).
Proof.
  induction n as [|n IH]; [constructor|].
  rewrite spawn_trace_S. apply Forall_app. split.
  - unfold version_reads. destruct (from_cache _ _); repeat constructor.
  - constructor; [now right | exact IH].
Qed.

(** A run that resolves went through configured groups only. *)
Lemma resolved_groups_configured (req : Request) (version : string)
    (q : Query) (gm : gmap string AzureGroup) (names : list string)
    (st st1 : State) (fo : FanOut) :
  fanout_loop w req version q gm (mkFanOut [] [] []) names st = (Ok fo, st1) ->
  Forall (configured gm) names.
Proof.
  intros Hloop.
  destruct (fanout_loop_spec w req version q gm names (mkFanOut [] [] []) st
              ltac:(constructor)) as (spawn & _ & _ & _ & Hok).
  rewrite Hloop in Hok. cbn [fst] in Hok. destruct Hok as (gs & HF & _).
  clear -HF. induction HF as [|n g ns gs Hg _ IH]; constructor;
    [exists g; exact Hg | exact IH].
Qed.

(** Awaiting promises that pin the model: one initializer call each, all
    with [req.body.model] as it is when [Promise.all] is awaited. *)
Lemma promise_all_pins (ps : list (Promise Page)) (st st' : State)
    (pages : list Page) :
  Forall pins_model ps ->
  promise_all ps st = (Ok pages, st') ->
  exists delta,
    st' = mkState (body_model st) (trace st ++ delta)
    /\ length (init_calls delta) = length ps
    /\ Forall (fun ia => ia_body_model (snd ia) = body_model st)
         (init_calls delta).
Proof.
  intros Hps. revert st st' pages.
  induction Hps as [|p ps Hp _ IH]; intros st st' pages Hrun.
  - cbn in Hrun. injection Hrun as <- <-. exists []. rewrite app_nil_r.
    destruct st. repeat split. constructor.
  - cbn [promise_all] in Hrun.
    apply bind_ok in Hrun as (page & st1 & Hfirst & Hrun).
    apply bind_ok in Hrun as (rest & st2 & Hrest & Hret).
    unfold ret in Hret. injection Hret as <- <-.
    destruct (Hp st page st1 Hfirst) as (azure & args & c & q' & -> & Hbm).
    destruct (IH _ _ _ Hrest) as (delta & -> & Hlen & Hall).
    cbn [body_model trace] in *.
    exists ([EvInit azure args; EvList c q'] ++ delta).
    rewrite <- app_assoc. split; [reflexivity|].
    cbn [app init_calls length].
    split; [now rewrite Hlen|]. constructor; assumption.
Qed.

End AzureEdges.

(** X8.  The multi-deployment lister on a broken configuration.  With no
    configuration at all it raises a [TypeError] before any group is
    looked at: no call of [listAssistants] is started and
    [req.body.model] is not written.  With a group name that [groupMap]
    does not have, or whose [models] table is empty, it raises a
    [TypeError] at that group: a call of [listAssistants] has been
    started, and its promise pushed, for each group before it and for no
    other, and [req.body.model] is left at the first model of the last
    group before it. *)
Theorem listAssistantsForAzure_misconfigured (w : World) (req : Request)
    (version : string) (q : Query) (st : State) :
  (fst (listAssistantsForAzure w req version None q st)
   = Throw (TypeError "assistantGroups is not iterable")
   /\ body_model (snd (listAssistantsForAzure w req version None q st))
      = body_model st
   /\ promises_made (trace (snd (listAssistantsForAzure w req version None q st)))
      = promises_made (trace st))
  /\ (forall cfg good bad rest,
      assistantGroups cfg = good ++ bad :: rest ->
      Forall (configured (groupMap cfg)) good ->
      ill_configured (groupMap cfg) bad ->
      (exists what,
          fst (listAssistantsForAzure w req version (Some cfg) q st)
          = Throw (TypeError what))
      /\ body_model (snd (listAssistantsForAzure w req version (Some cfg) q st))
         = final_model (groupMap cfg) good (body_model st)
      /\ promises_made
           (trace (snd (listAssistantsForAzure w req version (Some cfg) q st)))
         = (promises_made (trace st) + length good)%nat).
Proof.
  split; [repeat split|].
  intros cfg good bad rest Hnames Hgood Hbad.
  destruct (fanout_loop_stops w req version q (groupMap cfg) good bad rest
              (mkFanOut [] [] []) st Hgood Hbad) as (what & Hloop).
  unfold listAssistantsForAzure, bind. rewrite Hnames, Hloop.
  cbn [fst snd body_model trace].
  split; [eauto|]. split; [reflexivity|].
  rewrite promises_made_app. f_equal. apply spawn_trace_calls.
Qed.

Lemma listAssistantsForAzure_misconfigured_witness :
  let run := listAssistantsForAzure provider_world
               (azure_request config_dangling) "v1" (Some config_dangling)
               (mkQuery (VNum 100) (VStr "desc") VUndefined VUndefined)
               plain_state in
  (exists what, fst run = Throw (TypeError what))
  /\ body_model (snd run) = VStr "gpt-a"
  /\ promises_made (trace (snd run)) = 1%nat.
Proof.
  intros run.
  destruct (listAssistantsForAzure_misconfigured provider_world
              (azure_request config_dangling) "v1"
              (mkQuery (VNum 100) (VStr "desc") VUndefined VUndefined)
              plain_state) as [_ H].
  destruct (H config_dangling ["g1"] "g9" ["g1"] eq_refl)
    as (Hfail & Hbody & Hpushed).
  - repeat constructor. exists group_g1. split; [reflexivity | discriminate].
  - left. reflexivity.
  - subst run. split; [exact Hfail|]. split.
    + rewrite Hbody. reflexivity.
    + rewrite Hpushed. reflexivity.
Defined.

(** X9.  In a run of the multi-deployment lister that resolves, every
    client initializer is called after the loop is over: there is one
    initializer call per group, and each of them sees [req.body.model]
    set to the first model of the LAST configured group, which is also
    what the request body is left with.  The loop's write of a group's own
    first model is seen by that group's initializer only for the last
    group. *)
Theorem azure_initializers_see_last_model (w : World) (req : Request)
    (version : string) (cfg : AzureConfig) (q : Query) (st st' : State)
    (env : Envelope) :
  listAssistantsForAzure w req version (Some cfg) q st = (Ok env, st') ->
  exists delta,
    trace st' = trace st ++ delta
    /\ length (init_calls delta) = length (assistantGroups cfg)
    /\ Forall (fun ia => ia_body_model (snd ia) = body_model st')
         (init_calls delta)
    /\ (assistantGroups cfg = [] -> body_model st' = body_model st)
    /\ (forall names name g,
          assistantGroups cfg = names ++ [name] ->
          groupMap cfg !! name = Some g ->
          body_model st' = VStr (first_model g)).
Proof.
  intros Hrun. unfold listAssistantsForAzure in Hrun.
  apply bind_ok in Hrun as (fo & st1 & Hloop & Hrun).
  apply bind_ok in Hrun as ([] & st2 & Hemit & Hrun).
  apply bind_ok in Hrun as (pages & st3 & Hall & Hrun).
  apply bind_ok in Hrun as (data & st4 & Hmerge & Hret).
  unfold ret in Hret. injection Hret as _ <-.
  unfold lift in Hmerge. injection Hmerge as _ <-.
  unfold emit in Hemit. injection Hemit as <-.
  pose proof (resolved_groups_configured w _ _ _ _ _ _ _ _ Hloop) as Hcfg.
  destruct (fanout_loop_complete w req version q (groupMap cfg)
              (assistantGroups cfg) (mkFanOut [] [] []) st Hcfg
              ltac:(constructor) ltac:(constructor))
    as (fo' & Hloop' & _ & Hpins & Hlen).
  rewrite Hloop in Hloop'. injection Hloop' as <- ->.
  destruct (promise_all_pins _ _ _ _ Hpins Hall) as (settle & -> & Hn & Hbm).
  cbn [body_model trace fo_promises length Nat.add] in *.
  exists (spawn_trace req (length (assistantGroups cfg)) ++ [EvAwaitAll] ++ settle).
  rewrite !init_calls_app.
  destruct (spawn_trace_calls req (length (assistantGroups cfg)))
    as (_ & -> & _).
  cbn [app init_calls]. rewrite <- !app_assoc.
  split; [reflexivity|]. split; [lia|]. split; [exact Hbm|]. split.
  - intros ->. reflexivity.
  - intros names name g -> Hg. now apply final_model_snoc.
Qed.

Lemma azure_initializers_see_last_model_witness :
  let run := listAssistantsForAzure provider_world (azure_request config_two)
               "v1" (Some config_two)
               (mkQuery (VNum 100) (VStr "desc") VUndefined VUndefined)
               plain_state in
  body_model (snd run) = VStr "gpt-c"
  /\ map (fun ia => ia_body_model (snd ia)) (init_calls (trace (snd run)))
     = [VStr "gpt-c"; VStr "gpt-c"].
Proof.
  intros run.
  destruct run as [[env|e] st'] eqn:E; subst run;
    [|vm_compute in E; discriminate E].
  destruct (azure_initializers_see_last_model provider_world _ _ _ _ _ _ _ E)
    as (delta & Ht & _ & _ & _ & Hlast).
  cbn [snd]. split.
  - apply (Hlast ["g1"] "g2" group_g2); reflexivity.
  - vm_compute in E. injection E as _ <-. reflexivity.
Defined.

(** ** The merge: every record of the vendor, once, in order *)

Section MergeRecords.

Lemma scan_tuples_in (d : value) (tuples : ModelTuples) (m : string) :
  scan_tuples d tuples = Some m -> m ∈ map fst tuples.
Proof.
  induction tuples as [|[m' mc] tuples IH]; [discriminate|].
  cbn. destruct (strict_eq _ _).
  - intros [= ->]. apply elem_of_cons. now left.
  - intros H. apply elem_of_cons. right. now apply IH.
Qed.

Lemma remap_with_model (g : AzureGroup) (a : Assistant) :
  models g <> [] ->
  exists m, m ∈ map fst (models g)
            /\ remap_with g (models g) (first_model g) a !! "model"
               = Some (VStr m).
Proof.
  intros Hm.
  assert (Hfirst : first_model g ∈ map fst (models g)).
  { unfold first_model. destruct (models g) as [|[m mc] rest];
      [contradiction|]. apply elem_of_cons. now left. }
  unfold remap_with. destruct (strict_eq _ _).
  - exists (first_model g). split; [exact Hfirst | apply lookup_insert_eq].
  - destruct (scan_tuples _ _) as [m|] eqn:Hs.
    + exists m. split; [now apply scan_tuples_in in Hs | apply lookup_insert_eq].
    + exists (first_model g). split; [exact Hfirst | apply lookup_insert_eq].
Qed.

Lemma remapped_records (g : AzureGroup) (p : Page) :
  models g <> [] ->
  Forall2 (remapped_from g) (remapped g p) (page_data p).
Proof.
  intros Hm. unfold remapped.
  induction (page_data p) as [|a l IH]; constructor; [|exact IH].
  split; [|now apply remap_with_model].
  intros k Hk. now apply remap_with_other_fields.
Qed.

Lemma merged_records (P : AzureGroup -> Prop) (gs : list AzureGroup)
    (pages : list Page) :
  Forall (fun g => models g <> [] /\ P g) gs ->
  length pages = length gs ->
  Forall2 (fun out raw => exists g, P g /\ remapped_from g out raw)
    (concat (zip_with remapped gs pages)) (concat (map page_data pages)).
Proof.
  intros Hgs. revert pages.
  induction Hgs as [|g gs (Hm & Hg) _ IH]; intros [|p pages] Hlen;
    try discriminate Hlen; [constructor|].
  cbn. apply Forall2_app.
  - eapply Forall2_impl; [now apply remapped_records|].
    intros out raw H. exists g. split; assumption.
  - apply IH. now injection Hlen.
Qed.

Lemma named_groups {A B} (R : A -> B -> Prop) (l : list A) (k : list B) :
  Forall2 R l k -> Forall (fun y => exists x, x ∈ l /\ R x y) k.
Proof.
  induction 1 as [|x y l k Hxy _ IH]; constructor.
  - exists x. split; [apply elem_of_cons; now left | exact Hxy].
  - eapply Forall_impl; [exact IH|].
    intros y' (x' & Hin & HR). exists x'.
    split; [apply elem_of_cons; now right | exact HR].
Qed.

End MergeRecords.

(** X10.  The merged data of a run that resolves holds exactly the
    records of the pages the vendor returned, page after page and in each
    page's order: nothing is dropped, added or reordered.  Each record
    keeps every field but [model] (its [id] in particular), and its
    [model] is one of the model names configured for one of the
    configured groups. *)
Theorem merge_keeps_records (w : World) (req : Request) (version : string)
    (cfg : AzureConfig) (q : Query) (st st' : State) (env : Envelope) :
  listAssistantsForAzure w req version (Some cfg) q st = (Ok env, st') ->
  exists pages delta,
    trace st' = trace st ++ delta
    /\ Forall2 (fun cq page => assistants_list w (fst cq) q = Ok page)
         (list_calls delta) pages
    /\ Forall2
         (fun out raw =>
            (forall k, k <> "model" -> out !! k = raw !! k)
            /\ exists name g m,
                name ∈ assistantGroups cfg
                /\ groupMap cfg !! name = Some g
                /\ m ∈ map fst (models g)
                /\ out !! "model" = Some (VStr m))
         (data env) (concat (map page_data pages)).
Proof.
  intros Hrun.
  destruct (listAssistantsForAzure_spec w req version cfg q st st' env Hrun)
    as (gs & pages & spawn & settle
        & HF & Ht & _ & Hl & _ & _ & Hp & Hlen & ->).
  exists pages, (spawn ++ [EvAwaitAll] ++ settle).
  split; [exact Ht|]. split.
  - rewrite !list_calls_app, Hl. cbn [app list_calls].
    eapply Forall2_impl; [exact Hp|]. intros cq page [_ H]. exact H.
  - cbn [data envelope_of].
    eapply Forall2_impl.
    + apply (merged_records
               (fun g => exists name, name ∈ assistantGroups cfg
                                      /\ groupMap cfg !! name = Some g));
        [|exact Hlen].
      eapply Forall_impl; [exact (named_groups _ _ _ HF)|].
      intros g (name & Hin & Hg & Hm). split; [exact Hm|].
      exists name. split; assumption.
    + intros out raw (g & (name & Hin & Hg) & Hother & m & Hmin & Hmodel).
      split; [exact Hother|]. exists name, g, m. repeat split; assumption.
Qed.

Lemma merge_keeps_records_witness :
  let run := listAssistantsForAzure provider_world (azure_request config_two)
               "v1" (Some config_two)
               (mkQuery (VNum 100) (VStr "desc") VUndefined VUndefined)
               plain_state in
  exists env,
    fst run = Ok env
    /\ map (fun a => a !! "id") (data env) = [Some (VStr "1"); Some (VStr "1")]
    /\ map (fun a => a !! "model") (data env)
       = [Some (VStr "gpt-b"); Some (VStr "gpt-d")].
Proof.
  intros run.
  destruct run as [[env|e] st'] eqn:E; subst run;
    [|vm_compute in E; discriminate E].
  destruct (merge_keeps_records provider_world _ _ _ _ _ _ _ E)
    as (pages & delta & _ & _ & _).
  exists env. split; [reflexivity|].
  vm_compute in E. injection E as <- _. split; reflexivity.
Defined.

(** ** How often the version is resolved *)

Section Reads.

Variable w : World.

(** [listAssistants] resolves the version once more, whatever follows. *)
Lemma listAssistants_reads (req : Request) (version : string) (q : Query)
    (st : State) :
  exists d,
    snd (listAssistants w req version q st)
    = mkState (body_model st)
        (trace st ++ version_reads req (lister_endpoint req) ++ d)
    /\ cache_reads d = 0%nat.
Proof.
  rewrite listAssistants_eq. cbv zeta.
  rewrite getCurrentVersion_reads.
  unfold endpoint_of. cbn [ca_req ca_overrideEndpoint coalesce].
  fold (lister_endpoint req).
  destruct (settles_resume w (mkClientArgs req VUndefined VUndefined None)
              (lister_endpoint req)
              (fst (getCurrentVersion w req (lister_endpoint req) st)) q
              (mkState (body_model st)
                 (trace st ++ version_reads req (lister_endpoint req))))
    as (d & Hs & _ & Hc & _).
  exists d. rewrite Hs. cbn [body_model trace].
  rewrite <- app_assoc. split; [reflexivity | exact Hc].
Qed.

(** Awaiting the promises reads no cache, whatever they resolve to. *)
Lemma promise_all_quiet (q : Query) (ps : list (Promise Page)) (st : State) :
  Forall (settles w q) ps ->
  exists d,
    snd (promise_all ps st) = mkState (body_model st) (trace st ++ d)
    /\ cache_reads d = 0%nat.
Proof.
  intros Hps. revert st. induction Hps as [|p ps Hp _ IH]; intros st.
  - exists []. cbn. rewrite app_nil_r. destruct st. split; reflexivity.
  - cbn [promise_all]. unfold bind, await, ret.
    destruct (Hp st) as (d1 & Hs1 & _ & Hc1 & _).
    destruct (p st) as [[page|e] st1]; cbn [snd] in *; subst st1.
    2:{ exists d1. split; [reflexivity | exact Hc1]. }
    destruct (IH (mkState (body_model st) (trace st ++ d1)))
      as (d2 & Hs2 & Hc2).
    exists (d1 ++ d2). rewrite cache_reads_app, Hc1, Hc2, app_assoc.
    destruct (promise_all ps _) as [[pages|e] st2]; cbn [snd] in *;
      subst st2; split; reflexivity.
Qed.

(** A well-formed fan-out, whatever its promises resolve to: the loop's
    trace, the await, and no cache read after it. *)
Lemma listAssistantsForAzure_reads (req : Request) (version : string)
    (cfg : AzureConfig) (q : Query) (st : State) :
  well_formed cfg ->
  exists d,
    trace (snd (listAssistantsForAzure w req version (Some cfg) q st))
    = trace st ++ spawn_trace req (length (assistantGroups cfg))
      ++ [EvAwaitAll] ++ d
    /\ cache_reads d = 0%nat.
Proof.
  intros Hwf. unfold listAssistantsForAzure, bind, emit, lift, ret.
  destruct (fanout_loop_complete w req version q (groupMap cfg)
              (assistantGroups cfg) (mkFanOut [] [] []) st Hwf
              ltac:(constructor) ltac:(constructor))
    as (fo & -> & Hs & _ & _).
  cbn [body_model trace].
  destruct (promise_all_quiet q (fo_promises fo)
              (mkState (final_model (groupMap cfg) (assistantGroups cfg)
                          (body_model st))
                 ((trace st ++ spawn_trace req (length (assistantGroups cfg)))
                  ++ [EvAwaitAll])) Hs) as (d & Hd & Hc).
  exists d. split; [|exact Hc].
  destruct (promise_all (fo_promises fo) _) as [[pages|e] st2];
    cbn [snd] in Hd; subst st2; [destruct (remap_pages _ _ _ _)|];
    cbn [snd trace]; rewrite <- !app_assoc; reflexivity.
Qed.

End Reads.

(** With a cache whose reads resolve, the reads of a fetch, whatever
    else happens: one by [fetchAssistants], one more on the direct path,
    one per group on a well-formed fan-out. *)
Lemma fetch_reads_counted (w : World) (req : Request) (st : State)
    (e : string) :
  query_endpoint req = Some e -> e <> "" ->
  exists delta,
    trace (snd (fetchAssistants w req st)) = trace st ++ delta
    /\ let once := (if from_cache req (Some e) then 1 else 0)%nat in
       let again :=
         (if from_cache req (lister_endpoint req) then 1 else 0)%nat in
       (e = E_assistants w -> cache_reads delta = (once + again)%nat)
       /\ (e <> E_assistants w -> e = E_azureAssistants w ->
           forall cfg,
             locals_azureConfig req = Some cfg -> well_formed cfg ->
             cache_reads delta
             = (once + length (assistantGroups cfg) * again)%nat)
       /\ (e <> E_assistants w -> e <> E_azureAssistants w ->
           cache_reads delta = once).
Proof.
  intros Hq He. unfold fetchAssistants, bind, ret. rewrite Hq.
  destruct (getCurrentVersion_named w req e st He) as (v & ->).
  destruct (version_reads_calls req (Some e)) as (_ & _ & _ & Honce).
  destruct (version_reads_calls req (lister_endpoint req))
    as (_ & _ & _ & Hagain).
  set (st1 := mkState (body_model st) (trace st ++ version_reads req (Some e))).
  destruct (bool_decide (Some e = Some (E_assistants w))) eqn:E1.
  - apply bool_decide_eq_true_1 in E1. injection E1 as E1.
    destruct (listAssistants_reads w req v (fetch_query req) st1)
      as (d & Hs & Hd).
    exists (version_reads req (Some e)
            ++ version_reads req (lister_endpoint req) ++ d).
    split.
    + destruct (listAssistants w req v (fetch_query req) st1)
        as [[page|err] st2]; cbn [snd] in *; subst st2 st1;
        cbn [trace]; rewrite <- app_assoc; reflexivity.
    + cbv zeta. split; [|split]; try (intros; congruence).
      intros _. rewrite !cache_reads_app, Honce, Hagain, Hd. lia.
  - apply bool_decide_eq_false_1 in E1.
    destruct (bool_decide (Some e = Some (E_azureAssistants w))) eqn:E2.
    + apply bool_decide_eq_true_1 in E2. injection E2 as E2.
      destruct (listAssistantsForAzure_queries w req v (locals_azureConfig req)
                  (fetch_query req) st1) as (d & Ht & _).
      exists (version_reads req (Some e) ++ d). split.
      * destruct (listAssistantsForAzure w req v _ _ st1) as [[env|err] st2];
          cbn [snd] in *; rewrite Ht; subst st1; cbn [trace];
          rewrite <- app_assoc; reflexivity.
      * cbv zeta. split; [|split]; try (intros; congruence).
        intros _ _ cfg Hcfg Hwf. rewrite Hcfg in Ht.
        destruct (listAssistantsForAzure_reads w req v cfg (fetch_query req)
                    st1 Hwf) as (d' & Ht' & Hd').
        rewrite Ht' in Ht. apply app_inv_head in Ht. subst d.
        rewrite !cache_reads_app, Honce, Hd'.
        destruct (spawn_trace_calls req (length (assistantGroups cfg)))
          as (_ & _ & _ & ->).
        cbn [cache_reads]. lia.
    + apply bool_decide_eq_false_1 in E2.
      exists (version_reads req (Some e)). subst st1. cbn [snd trace].
      split; [reflexivity|]. cbv zeta.
      split; [|split]; intros; first [congruence | exact Honce].
Qed.

(** X11.  The version is resolved again by every call of
    [listAssistants], the version [fetchAssistants] resolved itself not
    being used.  A fetch that resolves for a non-empty query endpoint has
    therefore read the configuration cache, when the version comes from
    it, twice on the direct path (once for the query's endpoint, once for
    the endpoint the body, else the query, names) and once plus once per
    configured group on the fan-out; on an unknown endpoint it has read
    it once. *)
Theorem fetchAssistants_cache_reads (w : World) (req : Request)
    (st st' : State) (body : option Envelope) (e : string) :
  query_endpoint req = Some e -> e <> "" ->
  fetchAssistants w req st = (Ok body, st') ->
  exists delta,
    trace st' = trace st ++ delta
    /\ let once := (if from_cache req (Some e) then 1 else 0)%nat in
       let again :=
         (if from_cache req (lister_endpoint req) then 1 else 0)%nat in
       (e = E_assistants w -> cache_reads delta = (once + again)%nat)
       /\ (e <> E_assistants w -> e = E_azureAssistants w ->
           exists cfg,
             locals_azureConfig req = Some cfg
             /\ cache_reads delta
                = (once + length (assistantGroups cfg) * again)%nat)
       /\ (e <> E_assistants w -> e <> E_azureAssistants w ->
           cache_reads delta = once).
Proof.
  intros Hq He Hrun.
  destruct (fetch_reads_counted w req st e Hq He)
    as (delta & Ht & Hdirect & Hazure & Hother).
  rewrite Hrun in Ht. cbn [snd] in Ht.
  exists delta. split; [exact Ht|]. cbv zeta.
  split; [exact Hdirect|]. split; [|exact Hother].
  intros Hne Heq.
  unfold fetchAssistants in Hrun.
  apply bind_ok in Hrun as (v & st1 & _ & Hrun). rewrite Hq in Hrun.
  rewrite bool_decide_eq_false_2 in Hrun by congruence.
  rewrite bool_decide_eq_true_2 in Hrun by congruence.
  apply bind_ok in Hrun as (env & st2 & Hlist & _).
  destruct (locals_azureConfig req) as [cfg|] eqn:Hcfg; [|discriminate Hlist].
  exists cfg. split; [reflexivity|].
  apply (Hazure Hne Heq cfg eq_refl).
  unfold listAssistantsForAzure in Hlist.
  apply bind_ok in Hlist as (fo & st3 & Hloop & _).
  exact (resolved_groups_configured w _ _ _ _ _ _ _ _ Hloop).
Qed.

Lemma fetchAssistants_cache_reads_witness :
  cache_reads
    (trace (snd (fetchAssistants provider_world
                   (request_of "/api/assistants" VUndefined None
                      (Some "assistants") None) plain_state))) = 2%nat
  /\ cache_reads
       (trace (snd (fetchAssistants provider_world
                      (request_of "/api/assistants" VUndefined None
                         (Some "azureAssistants") (Some config_two))
                      plain_state))) = 3%nat.
Proof.
  split.
  - destruct (fetchAssistants provider_world
                (request_of "/api/assistants" VUndefined None
                   (Some "assistants") None) plain_state)
      as [[body|err] st'] eqn:E; [|vm_compute in E; discriminate E].
    destruct (fetchAssistants_cache_reads provider_world
                (request_of "/api/assistants" VUndefined None
                   (Some "assistants") None) plain_state st' body
                "assistants" eq_refl ltac:(discriminate) E)
      as (delta & Ht & Hdirect & _).
    cbn [snd]. rewrite Ht. exact (Hdirect eq_refl).
  - destruct (fetchAssistants provider_world
                (request_of "/api/assistants" VUndefined None
                   (Some "azureAssistants") (Some config_two)) plain_state)
      as [[body|err] st'] eqn:E; [|vm_compute in E; discriminate E].
    destruct (fetchAssistants_cache_reads provider_world
                (request_of "/api/assistants" VUndefined None
                   (Some "azureAssistants") (Some config_two)) plain_state
                st' body "azureAssistants" eq_refl ltac:(discriminate) E)
      as (delta & Ht & _ & Hazure & _).
    destruct (Hazure ltac:(discriminate) eq_refl) as (cfg & [= <-] & Hn).
    cbn [snd]. rewrite Ht. exact Hn.
Defined.

(** ** The endpoint that picks the client on the direct path *)

(** X12.  [fetchAssistants] branches on the query's endpoint, but the
    client of the direct path is picked by [getOpenAIClient] from the
    body's endpoint first.  A direct fetch that resolves has called
    exactly one initializer: the direct-provider one when the body names
    no endpoint, and the cloud-vendor one when the body names an endpoint
    other than the direct-provider one (which then is the cloud-vendor
    endpoint). *)
Theorem fetchAssistants_direct_client (w : World) (req : Request)
    (st st' : State) (body : option Envelope) :
  query_endpoint req = Some (E_assistants w) ->
  fetchAssistants w req st = (Ok body, st') ->
  exists delta azure args,
    trace st' = trace st ++ delta
    /\ init_calls delta = [(azure, args)]
    /\ (body_endpoint req = None -> azure = false)
    /\ (forall b, body_endpoint req = Some b -> b <> E_assistants w ->
        azure = true /\ b = E_azureAssistants w).
Proof.
  intros Hq Hrun. unfold fetchAssistants in Hrun.
  apply bind_ok in Hrun as (v & st1 & Hv & Hrun).
  rewrite bool_decide_eq_true_2 in Hrun by exact Hq.
  apply bind_ok in Hrun as (page & st2 & Hlist & Hret).
  unfold ret in Hret. injection Hret as _ <-.
  pose proof (getCurrentVersion_reads w req (query_endpoint req) st) as Hs1.
  rewrite Hv in Hs1. cbn [snd] in Hs1. subst st1.
  rewrite listAssistants_eq in Hlist. cbv zeta in Hlist.
  rewrite getCurrentVersion_reads in Hlist.
  set (a := mkClientArgs req VUndefined VUndefined None) in *.
  pose proof (listAssistants_resume_spec w a (endpoint_of a)
                (fst (getCurrentVersion w req (endpoint_of a)
                        (mkState (body_model st)
                           (trace st ++ version_reads req (query_endpoint req)))))
                (fetch_query req)
                (mkState (body_model st)
                   ((trace st ++ version_reads req (query_endpoint req))
                    ++ version_reads req (endpoint_of a)))) as H.
  cbv zeta in H. cbn [body_model trace] in Hlist, H. rewrite Hlist in H.
  cbn [fst snd] in H.
  destruct H as (v' & azure & c & _ & Hsel & -> & _).
  eexists (version_reads req (query_endpoint req)
           ++ version_reads req (endpoint_of a) ++ [_; _]), azure, _.
  cbn [trace]. rewrite <- !app_assoc. split; [reflexivity|].
  rewrite !init_calls_app.
  destruct (version_reads_calls req (query_endpoint req)) as (_ & -> & _).
  destruct (version_reads_calls req (endpoint_of a)) as (_ & -> & _).
  cbn [app init_calls]. split; [reflexivity|].
  unfold endpoint_of in Hsel. cbn [a ca_req ca_overrideEndpoint coalesce] in Hsel.
  split.
  - intros Hb. rewrite Hb, Hq in Hsel. cbn [coalesce] in Hsel.
    destruct Hsel as [(-> & _) | (_ & Hne & _)]; [reflexivity | contradiction].
  - intros b Hb Hne. rewrite Hb in Hsel. cbn [coalesce] in Hsel.
    destruct Hsel as [(_ & [= ->] & _) | (-> & _ & [= ->] & _)];
      [contradiction | split; reflexivity].
Qed.

Lemma fetchAssistants_direct_client_witness :
  map fst
    (init_calls
       (trace (snd (fetchAssistants provider_world
                      (request_of "/api/assistants/v2" VUndefined
                         (Some "azureAssistants") (Some "assistants") None)
                      plain_state)))) = [true].
Proof.
  destruct (fetchAssistants provider_world
              (request_of "/api/assistants/v2" VUndefined
                 (Some "azureAssistants") (Some "assistants") None)
              plain_state) as [[body|e] st'] eqn:E;
    [|vm_compute in E; discriminate E].
  destruct (fetchAssistants_direct_client provider_world
              (request_of "/api/assistants/v2" VUndefined
                 (Some "azureAssistants") (Some "assistants") None)
              plain_state st' body eq_refl E)
    as (delta & azure & args & Ht & Hi & _ & Hbody).
  destruct (Hbody "azureAssistants" eq_refl ltac:(discriminate)) as [-> _].
  cbn [snd]. rewrite Ht, init_calls_app, Hi. reflexivity.
Defined.

(** X13.  A base path that ends with its ['/v'] resolves to the
    one-character version ["v"], whatever the body, the endpoint and the
    cache hold, and without a cache read. *)
Theorem getCurrentVersion_bare_segment (w : World) (req : Request)
    (ep : option string) (st : State) (pre : string) :
  baseUrl req = pre +:+ "/v" ->
  getCurrentVersion w req ep st = (Ok "v", st).
Proof.
  intros Hb.
  assert (Hb' : baseUrl req = pre +:+ "/v" +:+ "").
  { rewrite Hb. reflexivity. }
  apply (getCurrentVersion_at w req ep st pre "" Hb').
  rewrite Hb'. unfold lastIndexOf.
  rewrite (lastIndexOf_from_last "/"%char "v" pre "").
  - lia.
  - apply not_contains_after_v. intros (a & b & E).
    destruct a; discriminate E.
Qed.

Lemma getCurrentVersion_bare_segment_witness :
  getCurrentVersion provider_world
    (request_of "/api/assistants/v" (VStr "2") None None None)
    (Some "assistants") plain_state
  = (Ok "v", plain_state).
Proof.
  apply (getCurrentVersion_bare_segment provider_world _ _ _ "/api/assistants").
  reflexivity.
Defined.

(** ** The boundary ids of the merged envelope *)

Section Boundaries.

Lemma id_of_related (R : Assistant -> Assistant -> Prop)
    (o o' : option Assistant) :
  (forall out raw, R out raw -> out !! "id" = raw !! "id") ->
  option_Forall2 R o o' -> id_of o = id_of o'.
Proof.
  intros HR [out raw H|]; [|reflexivity].
  unfold id_of, prop. now rewrite (HR out raw H).
Qed.

Lemma head_related {A B} (R : A -> B -> Prop) (l : list A) (k : list B) :
  Forall2 R l k -> option_Forall2 R (head l) (head k).
Proof. intros [|x y l' k' H _]; constructor. exact H. Qed.

End Boundaries.


